(** * Stock data fetcher: a shallow embedding of [src/fetch_stock_data.py]

    The script fetches one year of daily quotes for a ticker, prints
    descriptive statistics of the closing prices and writes the table to a
    dated CSV file.  This development embeds its four functions
    ([fetch_stock_data], [save_data], [get_stock_info], [main]) as programs
    of a state-and-exception monad over a [World] (standard output, a small
    filesystem, the clock and the log of calls made to external libraries)
    and proves the properties the specification states about them.

    Modelling choices.
    - Numbers held by the statistics are NumPy [float64] scalars: they are
      modelled as [spec_float] with the binary64 parameters, so that
      subtraction, division and multiplication round and overflow as IEEE 754
      prescribes, and a division by zero yields an infinity or a NaN instead
      of raising.
    - [print] appends one entry per call to [stdout]; the f-string formats
      used by the script ([:.0f], [:.2f], [:.6f], [:,]) are implemented
      exactly (round half to even on the exact binary value).
    - The filesystem is a set of directories and a map from paths to file
      contents.  Paths are names compared as texts, split at ["/"].  What
      the arguments alone decide is modelled: [os.makedirs] raises
      [FileNotFoundError] on the empty name and [FileExistsError] on an
      existing directory unless [exist_ok] is set, writing a file raises
      [OSError] when the directory named before the last ["/"] does not
      exist, and both raise [ValueError] on a name that holds the NUL
      character.  What only a hostile environment decides (permissions, a
      file standing where a directory is wanted, a full disk, the limit
      the filesystem puts on the length of a name) is not modelled.  A path is not normalised, so two spellings of one file
      are two names: statements about the file written are given for a
      ticker without ["/"].  The size of a file is the length of its text
      in bytes.
    - The values of the profile mapping are Python scalars: a string, an
      integer, a boolean, a float or [None]; [format(value, ",")] raises
      on a string and on [None] as Python does.
    - The quote client (yfinance) and the pandas routines [describe],
      [to_csv] and the textual rendering of a frame are external
      collaborators: they are parameters of the development. *)

From Stdlib Require Import ZArith Lia List String Ascii Bool.
From Stdlib Require Import Floats.SpecFloat.
From stdpp Require Import gmap strings pretty.

Local Open Scope Z_scope.
Local Open Scope string_scope.

(** ** Binary64 arithmetic *)

Module F64.

Definition prec : Z := 53.
Definition emax : Z := 1024.

Definition sub : spec_float -> spec_float -> spec_float := SFsub prec emax.
Definition mul : spec_float -> spec_float -> spec_float := SFmul prec emax.
Definition div : spec_float -> spec_float -> spec_float := SFdiv prec emax.
Definition leb : spec_float -> spec_float -> bool := SFleb.
Definition eqb : spec_float -> spec_float -> bool := SFeqb.
Definition valid : spec_float -> bool := valid_binary prec emax.

(** Conversion of a Python [int] operand to [float64]. *)
Definition of_Z (z : Z) : spec_float := binary_normalize prec emax z 0 false.

Definition zero : spec_float := S754_zero false.
Definition hundred : spec_float := Eval vm_compute in of_Z 100.
Definition kibi : spec_float := Eval vm_compute in of_Z 1024.

Definition is_finite (x : spec_float) : bool :=
  match x with
  | S754_zero _ | S754_finite _ _ _ => true
  | _ => false
  end.

(** An infinity or a NaN: the value IEEE 754 returns where real
    arithmetic has none. *)
Definition is_exceptional (x : spec_float) : bool := negb (is_finite x).

Definition ltb : spec_float -> spec_float -> bool := SFltb.

(** A float that is a zero, positive or plus infinity. *)
Definition nonneg (x : spec_float) : Prop :=
  match x with
  | S754_zero _ | S754_finite false _ _ | S754_infinity false => True
  | _ => False
  end.

End F64.

(** ** Text formatting *)

Definition nl : string := String (ascii_of_nat 10) "".

(** Python's [s * n] on strings. *)
Fixpoint str_repeat (s : string) (n : nat) : string :=
  match n with
  | O => ""
  | S n' => s +:+ str_repeat s n'
  end.

(** Zero padding on the left up to [width] characters. *)
Definition zero_pad (width : nat) (s : string) : string :=
  str_repeat "0" (width - String.length s) +:+ s.

(** Nearest integer to [num / den], ties to the even one ([0 < den]). *)
Definition round_half_even (num den : Z) : Z :=
  let q := num / den in
  let r := num mod den in
  match (2 * r ?= den) with
  | Lt => q
  | Gt => q + 1
  | Eq => if Z.even q then q else q + 1
  end.

(** A non-negative number given in units of [10^-digits], in fixed
    notation with [digits] decimals. *)
Definition fixed_point (digits : nat) (scaled : Z) : string :=
  let p := 10 ^ Z.of_nat digits in
  pretty (Z.to_N (scaled / p)) +:+
  match digits with
  | O => ""
  | _ => "." +:+ zero_pad digits (pretty (Z.to_N (scaled mod p)))
  end.

(** The format specifier [:.<digits>f] applied to a [float64]. *)
Definition format_f (digits : nat) (x : spec_float) : string :=
  let sign (s : bool) := if s then "-" else "" in
  match x with
  | S754_nan => "nan"
  | S754_infinity s => sign s +:+ "inf"
  | S754_zero s => sign s +:+ fixed_point digits 0
  | S754_finite s m e =>
      let num := Z.pos m * 10 ^ Z.of_nat digits in
      let scaled :=
        if (0 <=? e)%Z then num * 2 ^ e else round_half_even num (2 ^ (- e)) in
      sign s +:+ fixed_point digits scaled
  end.

(** Groups of three digits separated by commas, least significant group
    last; [fuel] bounds the number of groups. *)
Fixpoint group_thousands (fuel : nat) (n : N) : string :=
  match fuel with
  | O => pretty n
  | S fuel' =>
      if (n <? 1000)%N then pretty n
      else group_thousands fuel' (n / 1000)%N +:+ "," +:+
           zero_pad 3 (pretty (n mod 1000)%N)
  end.

(** The format specifier [:,] applied to an [int]. *)
Definition format_thousands (z : Z) : string :=
  let n := Z.to_N (Z.abs z) in
  (if (z <? 0)%Z then "-" else "") +:+ group_thousands (N.to_nat (N.log2 n)) n.

(** ** Data model *)

(** One row of the history frame.  [date] is the textual form of the row's
    index entry, as the script prints it. *)
Record QuoteRow := mkQuoteRow {
  date : string;
  open : spec_float;
  high : spec_float;
  low : spec_float;
  close : spec_float;
  volume : Z
}.

(** The history frame: its rows in chronological order.  The columns are
    fixed, so the frame is empty exactly when it has no row. *)
Definition Table : Type := list QuoteRow.

(** [DataFrame.empty]. *)
Definition empty (data : Table) : bool :=
  match data with
  | [] => true
  | _ :: _ => false
  end.

(** The [Close] column. *)
Definition closes (data : Table) : list spec_float := map close data.

(** A value held by the mapping [Ticker.info]. *)
Inductive pyval : Type :=
| PyStr (s : string)
| PyInt (z : Z)
| PyBool (b : bool)
| PyFloat (x : spec_float)
| PyNone.

(** The mapping [Ticker.info], read at the five keys the script asks for:
    every key may be absent, and a key that is present holds a value. *)
Record Profile := mkProfile {
  longName : option pyval;
  sector : option pyval;
  industry : option pyval;
  marketCap : option pyval;
  currency : option pyval
}.

(** The series returned by [Series.describe()].  [s_count] is the number of
    observations, which pandas stores as a float. *)
Record Stats := mkStats {
  s_count : N;
  s_mean : spec_float;
  s_std : spec_float;
  s_min : spec_float;
  s_p25 : spec_float;
  s_p50 : spec_float;
  s_p75 : spec_float;
  s_max : spec_float
}.

(** What [datetime.now()] returns. *)
Record DateTime := mkDateTime {
  year : N;
  month : N;
  day : N;
  hour : N;
  minute : N;
  second : N
}.

(** [strftime("%Y%m%d")]. *)
Definition strftime_Ymd (t : DateTime) : string :=
  zero_pad 4 (pretty (year t)) +:+ zero_pad 2 (pretty (month t)) +:+
  zero_pad 2 (pretty (day t)).

(** A date whose year has at most four digits and whose month and day
    have at most two, as every date of the calendar has. *)
Definition stamp_fits (t : DateTime) : Prop :=
  (year t < 10000)%N /\ (month t < 100)%N /\ (day t < 100)%N.

(** Reading a string of decimal digits back as a number. *)
Definition digit_value (c : ascii) : N := (N_of_ascii c - 48)%N.

Fixpoint decimal_value_from (acc : N) (s : string) : N :=
  match s with
  | EmptyString => acc
  | String c s' => decimal_value_from (acc * 10 + digit_value c)%N s'
  end.

Definition decimal_value (s : string) : N := decimal_value_from 0 s.

(** The [k] low decimal digits of a number, most significant first. *)
Fixpoint low_digits (k : nat) (n : N) : string :=
  match k with
  | O => ""
  | S k' => low_digits k' (n / 10)%N +:+ String (pretty_N_char (n mod 10)%N) ""
  end.

(** ** Exceptions, the world and the monad of programs *)

(** An instance of a subclass of [Exception]; [exn_msg] is its [str()]. *)
Record exn := mkExn { exn_type : string; exn_msg : string }.

Inductive outcome (A : Type) : Type :=
| Ok (a : A)
| Raise (e : exn).
Arguments Ok {A} a.
Arguments Raise {A} e.

(** Calls to external libraries, logged in the order they are made. *)
Inductive call : Type :=
| call_info (ticker : string)
| call_history (ticker period interval : string)
| call_describe
| call_makedirs (folder : string) (exist_ok : bool)
| call_now
| call_to_csv (path : string)
| call_getsize (path : string).

Record World := mkWorld {
  stdout : list string;
  dirs : gset string;
  files : gmap string string;
  clock : DateTime;
  calls : list call
}.

Definition M (A : Type) : Type := World -> outcome A * World.

Definition ret {A : Type} (a : A) : M A := fun w => (Ok a, w).

Definition bind {A B : Type} (c : M A) (k : A -> M B) : M B :=
  fun w =>
    match c w with
    | (Ok a, w') => k a w'
    | (Raise e, w') => (Raise e, w')
    end.

Declare Scope prog_scope.
Delimit Scope prog_scope with prog.
Notation "x <- c ;; k" := (bind c (fun x => k))
  (at level 100, c at next level, k at level 200, right associativity)
  : prog_scope.
Notation "c ;; k" := (bind c (fun _ => k))
  (at level 100, k at level 200, right associativity) : prog_scope.

(** [try: body except Exception as e: handler e]. *)
Definition try_except {A : Type} (body : M A) (handler : exn -> M A) : M A :=
  fun w =>
    match body w with
    | (Ok a, w') => (Ok a, w')
    | (Raise e, w') => handler e w'
    end.

(** The world after more lines were printed, and after more calls were
    logged. *)
Definition emit (lines : list string) (w : World) : World :=
  mkWorld (stdout w ++ lines) (dirs w) (files w) (clock w) (calls w).

Definition logged (cs : list call) (w : World) : World :=
  mkWorld (stdout w) (dirs w) (files w) (clock w) (calls w ++ cs).

(** The same world read at another time. *)
Definition at_time (t : DateTime) (w : World) : World :=
  mkWorld (stdout w) (dirs w) (files w) t (calls w).

Definition log (c : call) : M unit := fun w => (Ok tt, logged [c] w).

Definition print (line : string) : M unit := fun w => (Ok tt, emit [line] w).

(** The chain of directories leading to a path: ["a/b/c"] gives
    ["a"], ["a/b"] and ["a/b/c"]. *)
Fixpoint dir_chain (seen rest : string) : list string :=
  match rest with
  | EmptyString => [seen]
  | String c rest' =>
      if Ascii.eqb c "/"
      then seen :: dir_chain (seen +:+ "/") rest'
      else dir_chain (seen +:+ String c "") rest'
  end.

(** A name without path separator. *)
Fixpoint slash_free (s : string) : bool :=
  match s with
  | EmptyString => true
  | String c s' => negb (Ascii.eqb c "/") && slash_free s'
  end.

(** A name without the NUL character, which no system call accepts. *)
Fixpoint nul_free (s : string) : bool :=
  match s with
  | EmptyString => true
  | String c s' => negb (Ascii.eqb c Ascii.zero) && nul_free s'
  end.

(** The names of a chain that come before the first one holding a NUL. *)
Fixpoint names_before_nul (names : list string) : list string :=
  match names with
  | [] => []
  | name :: rest =>
      if nul_free name then name :: names_before_nul rest else []
  end.

(** The directory a path lies in: the text before its last ["/"], and
    [None] for a bare name, which lies in the current directory. *)
Fixpoint parent_dir (path : string) : option string :=
  match path with
  | EmptyString => None
  | String c rest =>
      match parent_dir rest with
      | Some parent => Some (String c parent)
      | None => if Ascii.eqb c "/" then Some "" else None
      end
  end.

(** The directories after [os.makedirs(folder, exist_ok=True)]. *)
Definition dirs_with (folder : string) (w : World) : gset string :=
  if decide (folder ∈ dirs w) then dirs w
  else dirs w ∪ list_to_set (dir_chain "" folder).

(** [os.makedirs(folder, exist_ok=...)]: creates the directory and the
    missing ones above it.  On a name that holds a NUL the directories
    above the first part with a NUL are made before [mkdir] raises. *)
Definition os_makedirs (folder : string) (exist_ok : bool) : M unit :=
  fun w =>
    let w1 := logged [call_makedirs folder exist_ok] w in
    if String.eqb folder "" then
      (Raise (mkExn "FileNotFoundError" "[Errno 2] No such file or directory: ''"), w1)
    else if negb (nul_free folder) then
      (Raise (mkExn "ValueError" "embedded null byte"),
       mkWorld (stdout w1)
         (dirs w1 ∪ list_to_set (names_before_nul (dir_chain "" folder)))
         (files w1) (clock w1) (calls w1))
    else if decide (folder ∈ dirs w1) then
      if exist_ok then (Ok tt, w1)
      else (Raise (mkExn "FileExistsError" folder), w1)
    else
      (Ok tt, mkWorld (stdout w1) (dirs w1 ∪ list_to_set (dir_chain "" folder))
                (files w1) (clock w1) (calls w1)).

(** [datetime.now()]. *)
Definition datetime_now : M DateTime :=
  fun w => (Ok (clock w), logged [call_now] w).

(** Whether the directory a path lies in exists: the current directory
    and the root always do. *)
Definition parent_exists (path : string) (w : World) : bool :=
  match parent_dir path with
  | Some parent => String.eqb parent "" || bool_decide (parent ∈ dirs w)
  | None => true
  end.

(** [DataFrame.to_csv(path)] with the text to write: pandas refuses a path
    whose directory does not exist and [open] one that holds a NUL;
    otherwise the file is opened for writing and [text] stored there, an
    existing file being replaced. *)
Definition write_file (path text : string) : M unit :=
  fun w =>
    let w1 := logged [call_to_csv path] w in
    if parent_exists path w1 then
      if nul_free path then
        (Ok tt, mkWorld (stdout w1) (dirs w1) (<[path := text]> (files w1))
                  (clock w1) (calls w1))
      else (Raise (mkExn "ValueError" "embedded null byte"), w1)
    else
      (Raise (mkExn "OSError"
                ("Cannot save file into a non-existent directory: '" +:+
                 default "" (parent_dir path) +:+ "'")),
       w1).

(** [os.path.getsize(path)]. *)
Definition os_path_getsize (path : string) : M nat :=
  fun w =>
    let w1 := logged [call_getsize path] w in
    match files w1 !! path with
    | Some text => (Ok (String.length text), w1)
    | None => (Raise (mkExn "FileNotFoundError" path), w1)
    end.

(** ** External collaborators *)

(** The quote client: what [Ticker(ticker).info] and
    [Ticker(ticker).history(period, interval)] answer, a value or an
    exception; pandas: [Series.describe()], the text that
    [DataFrame.to_csv()] writes and [str()] of a frame; and Python's own
    texts of a float, [str(x)] and [format(x, ",")]. *)
Class Externals := {
  yf_info : string -> outcome Profile;
  yf_history : string -> string -> string -> outcome Table;
  describe : list spec_float -> Stats;
  to_csv : Table -> string;
  show_frame : Table -> string;
  float_str : spec_float -> string;
  float_grouped : spec_float -> string
}.

(** ** The script *)

Section Script.

Context `{Externals}.

Local Open Scope prog_scope.

Definition stock_info (ticker : string) : M Profile :=
  fun w => (yf_info ticker, logged [call_info ticker] w).

Definition stock_history (ticker period interval : string) : M Table :=
  fun w => (yf_history ticker period interval,
            logged [call_history ticker period interval] w).

Definition series_describe (column : list spec_float) : M Stats :=
  log call_describe ;; ret (describe column).

(** [data.index[0]] and [data.index[-1]]. *)
Definition index_first (data : Table) : M string :=
  match data with
  | [] => fun w => (Raise (mkExn "IndexError" "index 0 is out of bounds"), w)
  | r :: _ => ret (date r)
  end.

Definition index_last (data : Table) : M string :=
  match data with
  | [] => fun w => (Raise (mkExn "IndexError" "index -1 is out of bounds"), w)
  | r :: rest => ret (date (List.last rest r))
  end.

Definition fetch_stock_data (ticker period interval : string)
  : M (option Table) :=
  print ("Fetching data for " +:+ ticker +:+ "...") ;;
  try_except
    (data <- stock_history ticker period interval ;;
     if empty data then
       print ("No data found for " +:+ ticker) ;;
       ret None
     else
       print ("Successfully fetched " +:+ pretty (length data) +:+
              " rows of data") ;;
       first <- index_first data ;;
       final <- index_last data ;;
       print ("Date range: " +:+ first +:+ " to " +:+ final) ;;
       ret (Some data))
    (fun e =>
       print ("Error fetching data: " +:+ exn_msg e) ;;
       ret None).

Definition csv_path (folder ticker timestamp : string) : string :=
  folder +:+ "/" +:+ ticker +:+ "_" +:+ timestamp +:+ ".csv".

(** [os.path.getsize(filename) / 1024] under [:.2f]. *)
Definition size_kb (size : nat) : string :=
  format_f 2 (F64.div (F64.of_Z (Z.of_nat size)) F64.kibi).

Definition save_data (data : option Table) (ticker folder : string) : M unit :=
  match data with
  | None => print "No data to save"
  | Some table =>
      if empty table then print "No data to save"
      else
        os_makedirs folder true ;;
        now <- datetime_now ;;
        let timestamp := strftime_Ymd now in
        let filename := csv_path folder ticker timestamp in
        write_file filename (to_csv table) ;;
        print ("Data saved to: " +:+ filename) ;;
        size <- os_path_getsize filename ;;
        print ("File size: " +:+ size_kb size +:+ " KB")
  end.

Definition or_default {A : Type} (d : A) (o : option A) : A :=
  match o with
  | Some a => a
  | None => d
  end.

(** A replacement field without format specification: [format(v, "")],
    which is [str(v)]. *)
Definition py_str (v : pyval) : string :=
  match v with
  | PyStr s => s
  | PyInt z => pretty z
  | PyBool b => if b then "True" else "False"
  | PyFloat x => float_str x
  | PyNone => "None"
  end.

(** A replacement field with the specification [:,]: [format(v, ",")]. *)
Definition py_format_comma (v : pyval) : M string :=
  match v with
  | PyInt z => ret (format_thousands z)
  | PyBool b => ret (if b then "1" else "0")
  | PyFloat x => ret (float_grouped x)
  | PyStr _ =>
      fun w => (Raise (mkExn "ValueError" "Cannot specify ',' with 's'."), w)
  | PyNone =>
      fun w =>
        (Raise (mkExn "TypeError"
                  "unsupported format string passed to NoneType.__format__"), w)
  end.

Definition get_stock_info (ticker : string) : M unit :=
  try_except
    (info <- stock_info ticker ;;
     print (nl +:+ "--- Stock Information for " +:+ ticker +:+ " ---") ;;
     print ("Company: " +:+ py_str (or_default (PyStr "N/A") (longName info))) ;;
     print ("Sector: " +:+ py_str (or_default (PyStr "N/A") (sector info))) ;;
     print ("Industry: " +:+ py_str (or_default (PyStr "N/A") (industry info))) ;;
     cap <- py_format_comma (or_default (PyInt 0) (marketCap info)) ;;
     print ("Market Cap: $" +:+ cap) ;;
     print ("Currency: " +:+ py_str (or_default (PyStr "N/A") (currency info))))
    (fun e => print ("Could not fetch stock info: " +:+ exn_msg e)).

(** The derived values of the summary story. *)
Definition price_range (stats : Stats) : spec_float :=
  F64.sub (s_max stats) (s_min stats).

Definition percent_increase (stats : Stats) : spec_float :=
  F64.mul (F64.div (price_range stats) (s_min stats)) F64.hundred.

Definition iqr_range (stats : Stats) : spec_float :=
  F64.sub (s_p75 stats) (s_p25 stats).

Definition volatility_percent (stats : Stats) : spec_float :=
  F64.mul (F64.div (s_std stats) (s_mean stats)) F64.hundred.

Definition count_float (stats : Stats) : spec_float :=
  F64.of_Z (Z.of_N (s_count stats)).

(** The statistics with their explanations, one entry per [print]. *)
Definition stats_lines (stats : Stats) : list string :=
  [ nl +:+ "count: " +:+ format_f 6 (count_float stats);
    "What it means: The number of data points (trading days) in your dataset.";
    nl +:+ "mean: " +:+ format_f 6 (s_mean stats);
    "What it means: The average closing price across all " +:+
      pretty (s_count stats) +:+ " days.";
    nl +:+ "std: " +:+ format_f 6 (s_std stats) +:+ " (Standard Deviation)";
    "What it means: How much the stock price varies or spreads out from the average.";
    nl +:+ "min: " +:+ format_f 6 (s_min stats);
    "What it means: The lowest closing price in the dataset.";
    nl +:+ "25%: " +:+ format_f 6 (s_p25 stats) +:+ " (First Quartile)";
    "What it means: 25% of the days, the stock closed at or below $" +:+
      format_f 2 (s_p25 stats) +:+ ".";
    nl +:+ "50%: " +:+ format_f 6 (s_p50 stats) +:+ " (Median)";
    "What it means: The middle value. Half the days were above this price, half were below.";
    nl +:+ "75%: " +:+ format_f 6 (s_p75 stats) +:+ " (Third Quartile)";
    "What it means: 75% of the days, the stock closed at or below $" +:+
      format_f 2 (s_p75 stats) +:+ ".";
    nl +:+ "max: " +:+ format_f 6 (s_max stats);
    "What it means: The highest closing price in the dataset." ].

(** The four numbered sentences of the story. *)
Definition story_1 (ticker : string) (stats : Stats) : string :=
  "1. " +:+ ticker +:+ " averaged $" +:+ format_f 0 (s_mean stats) +:+
  " over the year".

Definition story_2 (stats : Stats) (range percent : spec_float) : string :=
  "2. Prices ranged from $" +:+ format_f 0 (s_min stats) +:+ " to $" +:+
  format_f 0 (s_max stats) +:+ " - that's a $" +:+ format_f 0 range +:+
  " spread (about " +:+ format_f 0 percent +:+
  "% increase from low to high!)".

Definition story_3 (stats : Stats) : string :=
  "3. Most days (50% of them) the stock was between $" +:+
  format_f 0 (s_p25 stats) +:+ " and $" +:+ format_f 0 (s_p75 stats) +:+
  " (the 25%-75% range)".

Definition story_4 (stats : Stats) (volatility : spec_float) : string :=
  "4. Standard deviation of $" +:+ format_f 0 (s_std stats) +:+
  " means daily prices typically varied by about " +:+
  format_f 0 volatility +:+ "% from average".

Definition story_lines (ticker : string) (stats : Stats) : list string :=
  let range := price_range stats in
  let percent := percent_increase stats in
  let iqr := iqr_range stats in
  let volatility := volatility_percent stats in
  [ nl +:+ str_repeat "=" 60;
    "Putting It All Together - The Story";
    str_repeat "=" 60;
    "These stats tell us:";
    story_1 ticker stats;
    story_2 stats range percent;
    story_3 stats;
    story_4 stats volatility ].

Fixpoint print_all (lines : list string) : M unit :=
  match lines with
  | [] => ret tt
  | line :: rest => print line ;; print_all rest
  end.

Definition success_marker : string := nl +:+ "✅ Data fetch complete!".
Definition failure_marker : string := nl +:+ "❌ Failed to fetch data".

Definition banner : M unit :=
  print (str_repeat "=" 50) ;;
  print "Stock Data Fetcher" ;;
  print (str_repeat "=" 50).

Definition main : M unit :=
  banner ;;
  let ticker := "JPM" in
  get_stock_info ticker ;;
  data <- fetch_stock_data ticker "1y" "1d" ;;
  match data with
  | Some table =>
      print (nl +:+ "First 5 rows of data:") ;;
      print (show_frame (firstn 5 table)) ;;
      print (nl +:+ "Basic Statistics:") ;;
      stats <- series_describe (closes table) ;;
      print_all (stats_lines stats) ;;
      print_all (story_lines ticker stats) ;;
      save_data data ticker "data" ;;
      print success_marker
  | None =>
      print failure_marker
  end.

(** The world in which [main] calls [fetch_stock_data]. *)
Definition before_fetch (w : World) : World :=
  snd (get_stock_info "JPM" (snd (banner w))).

(** What [main] prints between the fetch and the save. *)
Definition summary_lines (table : Table) : list string :=
  let stats := describe (closes table) in
  [ nl +:+ "First 5 rows of data:"; show_frame (firstn 5 table);
    nl +:+ "Basic Statistics:" ] ++
  stats_lines stats ++ story_lines "JPM" stats.

End Script.

(** ** The behaviour the specification words *)

Module Spec.

(** Data Fetcher: the distinguished [Empty] result (here [None]) for a
    client failure and for a zero-row answer, the table otherwise. *)
Definition fetch_result (answer : outcome Table) : option Table :=
  match answer with
  | Ok table => if empty table then None else Some table
  | Raise _ => None
  end.

(** What the fetcher reports besides its opening line: the row count and
    the date range, or a notice. *)
Definition fetch_notice (ticker : string) (answer : outcome Table)
  : list string :=
  match answer with
  | Ok [] => [ "No data found for " +:+ ticker ]
  | Ok (first :: rest) =>
      [ "Successfully fetched " +:+ pretty (S (length rest)) +:+ " rows of data";
        "Date range: " +:+ date first +:+ " to " +:+ date (List.last rest first) ]
  | Raise e => [ "Error fetching data: " +:+ exn_msg e ]
  end.

(** Profile Reporter: for each field its value if present, else a
    placeholder ("N/A", and 0 for the market capitalisation, printed with
    thousands separators behind a currency sign); a warning when the client
    fails.  A market capitalisation that is present but is not a number
    cannot be printed with separators: the report stops there with the
    warning of that failure. *)
Definition field_or_placeholder `{Externals} (field : option pyval) : string :=
  match field with
  | Some (PyStr value) => value
  | Some (PyInt value) => pretty value
  | Some (PyBool value) => if value then "True" else "False"
  | Some (PyFloat value) => float_str value
  | Some PyNone => "None"
  | None => "N/A"
  end.

Definition market_cap_text `{Externals} (field : option pyval)
  : string + string :=
  match field with
  | Some (PyInt value) => inl ("$" +:+ format_thousands value)
  | Some (PyBool value) => inl (if value then "$1" else "$0")
  | Some (PyFloat value) => inl ("$" +:+ float_grouped value)
  | Some (PyStr _) => inr "Cannot specify ',' with 's'."
  | Some PyNone => inr "unsupported format string passed to NoneType.__format__"
  | None => inl "$0"
  end.

Definition profile_report `{Externals} (ticker : string)
    (answer : outcome Profile) : list string :=
  match answer with
  | Ok info =>
      [ nl +:+ "--- Stock Information for " +:+ ticker +:+ " ---";
        "Company: " +:+ field_or_placeholder (longName info);
        "Sector: " +:+ field_or_placeholder (sector info);
        "Industry: " +:+ field_or_placeholder (industry info) ] ++
      match market_cap_text (marketCap info) with
      | inl text =>
          [ "Market Cap: " +:+ text;
            "Currency: " +:+ field_or_placeholder (currency info) ]
      | inr message => [ "Could not fetch stock info: " +:+ message ]
      end
  | Raise e => [ "Could not fetch stock info: " +:+ exn_msg e ]
  end.

(** Summarizer: the derived narrative values over the descriptive
    statistics. *)
Record Narrative := mkNarrative {
  n_price_range : spec_float;
  n_percent_increase : spec_float;
  n_iqr_range : spec_float;
  n_volatility_percent : spec_float
}.

Definition narrative (stats : Stats) : Narrative :=
  let range := F64.sub (s_max stats) (s_min stats) in
  {| n_price_range := range;
     n_percent_increase := F64.mul (F64.div range (s_min stats)) (F64.of_Z 100);
     n_iqr_range := F64.sub (s_p75 stats) (s_p25 stats);
     n_volatility_percent :=
       F64.mul (F64.div (s_std stats) (s_mean stats)) (F64.of_Z 100) |}.




(** A text that reports a numeric error instead of a number. *)
Definition numeric_error_text (s : string) : bool :=
  existsb (String.eqb s) ["inf"; "-inf"; "nan"].

End Spec.

(** ** A concrete scenario *)

Module Scenario.

Definition quote (day : string) (price : Z) : QuoteRow :=
  mkQuoteRow day (F64.of_Z price) (F64.of_Z price) (F64.of_Z price)
    (F64.of_Z price) 1000.

Definition half (n : Z) : spec_float := F64.div (F64.of_Z n) (F64.of_Z 2).

(** Three closes, 150, 200 and 175, and their statistics: mean 175,
    standard deviation 25, quartiles 162.5, 175 and 187.5. *)
Definition table3 : Table :=
  [ quote "2024-01-02" 150; quote "2024-01-03" 200; quote "2024-01-04" 175 ].

Definition stats3 : Stats :=
  mkStats 3 (F64.of_Z 175) (F64.of_Z 25) (F64.of_Z 150) (half 325)
    (F64.of_Z 175) (half 375) (F64.of_Z 200).

(** Three closes of which the lowest is zero, 0, 200 and 100, and their
    statistics: mean 100, standard deviation 100, quartiles 50, 100, 150. *)
Definition table_zero_min : Table :=
  [ quote "2024-01-02" 0; quote "2024-01-03" 200; quote "2024-01-04" 100 ].

Definition stats_zero_min : Stats :=
  mkStats 3 (F64.of_Z 100) (F64.of_Z 100) (F64.of_Z 0) (F64.of_Z 50)
    (F64.of_Z 100) (F64.of_Z 150) (F64.of_Z 200).

(** The example of the specification: 252 closing prices within
    [150, 200], of mean 175 and standard deviation 12. *)
Definition stats_example : Stats :=
  mkStats 252 (F64.of_Z 175) (F64.of_Z 12) (F64.of_Z 150) (F64.of_Z 165)
    (F64.of_Z 175) (F64.of_Z 185) (F64.of_Z 200).

Definition profile_partial : Profile :=
  mkProfile (Some (PyStr "JPMorgan Chase & Co.")) None (Some (PyStr "Banks"))
    (Some (PyInt 612345678901)) None.


(** A stand-in for [Series.describe()] that knows one series of closes:
    it answers the statistics of an empty series for any other. *)
Definition same_prices (xs ys : list spec_float) : bool :=
  (length xs =? length ys)%nat &&
  forallb (fun pair => F64.eqb (fst pair) (snd pair)) (combine xs ys).

Definition stats_of_nothing : Stats :=
  mkStats 0 S754_nan S754_nan S754_nan S754_nan S754_nan S754_nan S754_nan.

Definition describe_known (known : list Z) (stats : Stats)
    (prices : list spec_float) : Stats :=
  if same_prices prices (map F64.of_Z known) then stats else stats_of_nothing.

(** Stand-ins for Python's texts of a float. *)
Definition float_text (x : spec_float) : string := format_f 1 x.

Definition csv_text (table : Table) : string :=
  "Date,Open,High,Low,Close,Volume" +:+ nl +:+
  String.concat nl (map date table).

Definition frame_text (table : Table) : string :=
  String.concat nl (map date table).

(** A client that answers, one that is down, one that has no row, and one
    whose series bottoms out at zero. *)
Definition client_up : Externals :=
  {| yf_info := fun _ => Ok profile_partial;
     yf_history := fun _ _ _ => Ok table3;
     describe := describe_known [150; 200; 175] stats3;
     to_csv := csv_text;
     show_frame := frame_text;
     float_str := float_text;
     float_grouped := float_text |}.

Definition client_down : Externals :=
  {| yf_info := fun _ => Raise (mkExn "ConnectionError" "network is unreachable");
     yf_history := fun _ _ _ => Raise (mkExn "ConnectionError" "network is unreachable");
     describe := describe_known [150; 200; 175] stats3;
     to_csv := csv_text;
     show_frame := frame_text;
     float_str := float_text;
     float_grouped := float_text |}.

Definition client_no_rows : Externals :=
  {| yf_info := fun _ => Ok profile_partial;
     yf_history := fun _ _ _ => Ok [];
     describe := describe_known [150; 200; 175] stats3;
     to_csv := csv_text;
     show_frame := frame_text;
     float_str := float_text;
     float_grouped := float_text |}.

Definition client_zero_min : Externals :=
  {| yf_info := fun _ => Ok profile_partial;
     yf_history := fun _ _ _ => Ok table_zero_min;
     describe := describe_known [0; 200; 100] stats_zero_min;
     to_csv := csv_text;
     show_frame := frame_text;
     float_str := float_text;
     float_grouped := float_text |}.



Definition world0 : World :=
  mkWorld [] ∅ ∅ (mkDateTime 2024 3 7 10 30 0) [].

(** The same day with the file of the day before already on disk. *)
Definition world_day_after : World :=
  mkWorld [] {[ "data" ]} {[ "data/JPM_20240306.csv" := "Date,Close" ]}
    (mkDateTime 2024 3 7 10 30 0) [].

(** A single close at 150: every order statistic is 150 and the sample
    standard deviation of one value is a NaN. *)
Definition stats_flat : Stats :=
  mkStats 1 (F64.of_Z 150) S754_nan (F64.of_Z 150) (F64.of_Z 150)
    (F64.of_Z 150) (F64.of_Z 150) (F64.of_Z 150).

(** Three closes at zero: mean and standard deviation are zero. *)
Definition stats_all_zero : Stats :=
  mkStats 3 F64.zero F64.zero F64.zero F64.zero F64.zero F64.zero F64.zero.

End Scenario.

(** * Facts *)

(** ** Binary64: the sign of a difference *)

Module F64Facts.
Import F64.
Local Open Scope Z_scope.

Lemma digits2_pos_bounds (m : positive) :
  2 ^ (Z.pos (digits2_pos m) - 1) <= Z.pos m < 2 ^ Z.pos (digits2_pos m).
Proof.
  induction m as [p IH | p IH | ]; cbn [digits2_pos].
  1, 2: rewrite Pos2Z.inj_succ;
    replace (Z.succ (Z.pos (digits2_pos p)) - 1)
      with (Z.succ (Z.pos (digits2_pos p) - 1)) by lia;
    rewrite !Z.pow_succ_r by lia;
    destruct IH as [IHl IHu];
    set (a := 2 ^ (Z.pos (digits2_pos p) - 1)) in *;
    set (b := 2 ^ Z.pos (digits2_pos p)) in *;
    clearbody a b; lia.
  cbn. lia.
Qed.

Lemma iter_xO_mul (m d : positive) :
  Z.pos (Pos.iter xO m d) = Z.pos m * 2 ^ Z.pos d.
Proof.
  induction d as [ | d IH] using Pos.peano_ind.
  - cbn. lia.
  - rewrite Pos.iter_succ, Pos2Z.inj_xO, IH, Pos2Z.inj_succ, Z.pow_succ_r by lia.
    lia.
Qed.

Lemma shl_align_value (m : positive) (e e' : Z) :
  e' <= e -> Z.pos (fst (shl_align m e e')) = Z.pos m * 2 ^ (e - e').
Proof.
  intros Hle. unfold shl_align.
  destruct (e' - e) as [ | d | d] eqn:Hd.
  - cbn [fst]. replace (e - e') with 0 by lia. lia.
  - lia.
  - cbn [fst]. rewrite iter_xO_mul. f_equal. f_equal. lia.
Qed.

(** Of two canonical mantissas, the one with the larger exponent denotes
    the larger magnitude. *)
Lemma bounded_exponent_order (m1 m2 : positive) (e1 e2 : Z) :
  bounded prec emax m1 e1 = true ->
  bounded prec emax m2 e2 = true ->
  e1 < e2 ->
  Z.pos m1 < Z.pos m2 * 2 ^ (e2 - e1).
Proof.
  unfold bounded, canonical_mantissa, fexp, SpecFloat.emin, prec, emax.
  intros H1 H2 Hlt.
  apply andb_prop in H1 as [H1 _]. apply andb_prop in H2 as [H2 _].
  apply Z.eqb_eq in H1, H2.
  pose proof (digits2_pos_bounds m1) as [_ Hm1].
  pose proof (digits2_pos_bounds m2) as [Hm2 _].
  assert (Hd2 : Z.pos (digits2_pos m2) = 53) by lia.
  assert (Hd1 : Z.pos (digits2_pos m1) <= 53) by lia.
  rewrite Hd2 in Hm2.
  assert (Z.pos m1 < 2 ^ 53).
  { eapply Z.lt_le_trans; [exact Hm1 |]. apply Z.pow_le_mono_r; lia. }
  assert (2 ^ 1 <= 2 ^ (e2 - e1)) by (apply Z.pow_le_mono_r; lia).
  change (2 ^ (53 - 1)) with 4503599627370496 in Hm2.
  change (2 ^ 53) with 9007199254740992 in *.
  change (2 ^ 1) with 2 in *.
  nia.
Qed.

Lemma nonneg_leb (x : spec_float) : nonneg x -> leb zero x = true.
Proof. destruct x as [s | [] | | [] m e]; cbn; intros H; try easy. Qed.

Lemma iter_pos_invariant {A : Type} (P : A -> Prop) (f : A -> A) :
  (forall a, P a -> P (f a)) ->
  forall n a, P a -> P (SpecFloat.iter_pos f n a).
Proof.
  intros Hf. induction n as [n IH | n IH | ]; intros a Ha; cbn; auto.
Qed.

Lemma shr_1_nonneg (r : shr_record) : 0 <= shr_m r -> 0 <= shr_m (shr_1 r).
Proof.
  destruct r as [m rb sb]. cbn [shr_m]. intros H.
  destruct m as [ | [p | p | ] | p]; cbn; lia.
Qed.

Lemma shr_fexp_nonneg (m e : Z) (l : location) :
  0 <= m -> 0 <= shr_m (fst (shr_fexp prec emax m e l)).
Proof.
  intros Hm. unfold shr_fexp, shr.
  assert (H0 : 0 <= shr_m (shr_record_of_loc m l))
    by (destruct l as [ | []]; exact Hm).
  destruct (fexp prec emax (Zdigits2 m + e) - e); cbn [fst]; try exact H0.
  apply iter_pos_invariant; [apply shr_1_nonneg | exact H0].
Qed.

Lemma round_nearest_even_nonneg (m : Z) (l : location) :
  0 <= m -> 0 <= round_nearest_even m l.
Proof.
  intros Hm. destruct l as [ | []]; cbn; try lia.
  destruct (Z.even m); lia.
Qed.

Lemma binary_round_aux_nonneg (m e : Z) (l : location) :
  0 <= m -> nonneg (binary_round_aux prec emax false m e l).
Proof.
  intros Hm. unfold binary_round_aux.
  pose proof (shr_fexp_nonneg m e l Hm) as H1.
  destruct (shr_fexp prec emax m e l) as [mrs' e'] eqn:E1. cbn [fst] in H1.
  pose proof (shr_fexp_nonneg _ e' loc_Exact
                (round_nearest_even_nonneg _ (loc_of_shr_record mrs') H1)) as H2.
  destruct (shr_fexp prec emax _ e' loc_Exact) as [mrs'' e''] eqn:E2.
  cbn [fst] in H2.
  destruct (shr_m mrs'') as [ | p | p]; [exact I | | lia].
  destruct (e'' <=? emax - prec); exact I.
Qed.

Lemma binary_normalize_nonneg (m e : Z) :
  0 <= m -> nonneg (binary_normalize prec emax m e false).
Proof.
  intros Hm. destruct m as [ | p | p]; [exact I | | lia].
  cbn [binary_normalize]. unfold binary_round.
  destruct (shl_align _ _ _) as [mz ez].
  apply binary_round_aux_nonneg. lia.
Qed.

(** Subtracting a finite float from one that is at least as large gives a
    result that is not below zero: rounding keeps the sign, and an
    overflow gives plus infinity. *)
Lemma sub_nonneg (x y : spec_float) :
  valid x = true -> valid y = true ->
  is_finite x = true -> is_finite y = true ->
  leb y x = true ->
  nonneg (sub x y).
Proof.
  intros Vx Vy Fx Fy Hle.
  destruct x as [sx | sx | | sx mx ex]; try discriminate Fx;
    destruct y as [sy | sy | | sy my ey]; try discriminate Fy.
  - destruct sx, sy; exact I.
  - destruct sy; [exact I | discriminate Hle].
  - destruct sx; [discriminate Hle | exact I].
  - unfold sub, SFsub. apply binary_normalize_nonneg.
    cbn [valid valid_binary] in Vx, Vy. unfold valid in Vx, Vy. cbn in Vx, Vy.
    rewrite !shl_align_value by lia.
    assert (Hx : 0 < Z.pos mx * 2 ^ (ex - Z.min ex ey))
      by (apply Z.mul_pos_pos; [lia | apply Z.pow_pos_nonneg; lia]).
    assert (Hy : 0 < Z.pos my * 2 ^ (ey - Z.min ex ey))
      by (apply Z.mul_pos_pos; [lia | apply Z.pow_pos_nonneg; lia]).
    unfold leb, SFleb, SFcompare in Hle.
    change (Pos.compare_cont Eq my mx) with (Pos.compare my mx) in Hle.
    destruct sx, sy; cbn [cond_Zopp]; try discriminate Hle; try lia.
    + (* both negative *)
      destruct (Z.compare_spec ey ex) as [Heq | Hlt | Hgt]; try discriminate Hle.
      * subst ey. rewrite Z.min_id, Z.sub_diag, !Z.mul_1_r.
        destruct (Pos.compare_spec my mx); cbn in Hle; try discriminate Hle; lia.
      * pose proof (bounded_exponent_order mx my ex ey Vx Vy Hgt).
        rewrite Z.min_l by lia. rewrite Z.sub_diag, Z.mul_1_r. lia.
    + (* both positive *)
      destruct (Z.compare_spec ey ex) as [Heq | Hlt | Hgt]; try discriminate Hle.
      * subst ey. rewrite Z.min_id, Z.sub_diag, !Z.mul_1_r.
        destruct (Pos.compare_spec my mx); cbn in Hle; try discriminate Hle; lia.
      * pose proof (bounded_exponent_order my mx ey ex Vy Vx Hlt).
        rewrite Z.min_r by lia. rewrite Z.sub_diag, Z.mul_1_r. lia.
Qed.

(** *** The sign of a quotient and of a percentage *)

Lemma leb_zero_nonneg (x : spec_float) : leb zero x = true -> nonneg x.
Proof. destruct x as [s | [] | | [] m e]; cbn; intros H; try easy. Qed.

Lemma ltb_zero_positive (x : spec_float) :
  ltb zero x = true -> is_finite x = true ->
  exists m e, x = S754_finite false m e.
Proof.
  destruct x as [s | [] | | [] m e]; cbn; intros H F; try easy. eauto.
Qed.

Lemma div_nonneg (x y : spec_float) :
  nonneg x -> ltb zero y = true -> is_finite y = true -> nonneg (div x y).
Proof.
  intros Hx Hy Fy. destruct (ltb_zero_positive y Hy Fy) as (my & ey & ->).
  destruct x as [sx | [] | | [] mx ex]; try easy.
  unfold div, SFdiv, SFdiv_core_binary. cbn [xorb].
  set (m' := match _ - _ - _ with Z0 => Z.pos mx | Zpos _ => Z.shiftl (Z.pos mx) _ | Zneg _ => 0 end).
  assert (Hm' : 0 <= m').
  { unfold m'. destruct (_ - _ - _); try lia. apply Z.shiftl_nonneg. lia. }
  pose proof (Z.div_pos m' (Z.pos my) Hm' ltac:(lia)) as Hq.
  unfold Z.div in Hq.
  destruct (Z.div_eucl m' (Z.pos my)) as [q r]. cbn [fst] in Hq.
  now apply binary_round_aux_nonneg.
Qed.

Lemma mul_hundred_nonneg (x : spec_float) : nonneg x -> nonneg (mul x hundred).
Proof.
  destruct x as [sx | [] | | [] mx ex]; try easy. intros _.
  unfold mul, hundred, SFmul. cbn [xorb]. apply binary_round_aux_nonneg. lia.
Qed.

(** *** Exact conversions and the division by 1024 *)








End F64Facts.

(** ** Strings *)

Lemma append_empty_r (s : string) : s +:+ "" = s.
Proof.
  induction s as [ | c s IH]; [reflexivity | ].
  change (String c (s +:+ "") = String c s). now rewrite IH.
Qed.

Lemma append_assoc (s1 s2 s3 : string) :
  (s1 +:+ s2) +:+ s3 = s1 +:+ (s2 +:+ s3).
Proof.
  induction s1 as [ | c s1 IH]; [reflexivity | ].
  change (String c ((s1 +:+ s2) +:+ s3) = String c (s1 +:+ (s2 +:+ s3))).
  now rewrite IH.
Qed.

Lemma length_append (a b : string) :
  String.length (a +:+ b) = (String.length a + String.length b)%nat.
Proof.
  induction a as [ | c a IH]; [reflexivity | ].
  change (S (String.length (a +:+ b)) = S (String.length a + String.length b)).
  now rewrite IH.
Qed.

Lemma append_inj_l (s a b : string) : s +:+ a = s +:+ b -> a = b.
Proof.
  induction s as [ | c s IH]; [easy | ].
  change (String c (s +:+ a) = String c (s +:+ b) -> a = b).
  intros [= Heq]. auto.
Qed.

Lemma append_inj_length (a b x y : string) :
  a +:+ x = b +:+ y -> String.length x = String.length y -> a = b /\ x = y.
Proof.
  revert b. induction a as [ | c a IH]; intros [ | c' b] Heq Hlen.
  - split; [reflexivity | exact Heq].
  - exfalso. change (x = String c' (b +:+ y)) in Heq. subst x.
    cbn [String.length] in Hlen. rewrite length_append in Hlen. lia.
  - exfalso. change (String c (a +:+ x) = y) in Heq. subst y.
    cbn [String.length] in Hlen. rewrite length_append in Hlen. lia.
  - change (String c (a +:+ x) = String c' (b +:+ y)) in Heq.
    injection Heq as -> Heq. destruct (IH b Heq Hlen) as [-> ->]. auto.
Qed.

(** ** Decimal digits *)

Section DigitFacts.

Local Open Scope N_scope.

Lemma pretty_N_go_app (x : N) (s : string) :
  pretty_N_go x s = pretty_N_go x "" +:+ s.
Proof.
  revert s. induction (N.lt_wf_0 x) as [x _ IH]. intros s.
  destruct (N.eq_dec x 0) as [-> | Hx]; [reflexivity | ].
  rewrite (pretty_N_go_step x s), (pretty_N_go_step x "") by lia.
  assert (Hlt : x / 10 < x) by (apply N.div_lt; lia).
  set (c := pretty_N_char (x mod 10)).
  rewrite (IH (x / 10) Hlt (String c s)), (IH (x / 10) Hlt (String c "")).
  now rewrite append_assoc.
Qed.

Lemma pretty_digit (n : N) :
  n < 10 -> pretty n = String (pretty_N_char n) "".
Proof.
  intros Hn. unfold pretty, pretty_N.
  destruct (decide (n = 0)) as [-> | Hz]; [reflexivity | ].
  rewrite pretty_N_go_step by lia.
  rewrite N.div_small, N.mod_small by lia. reflexivity.
Qed.

Lemma pretty_tens (n : N) :
  10 <= n -> pretty n = pretty (n / 10) +:+ String (pretty_N_char (n mod 10)) "".
Proof.
  intros Hn. unfold pretty, pretty_N.
  assert (0 < n / 10) by (apply N.div_str_pos; lia).
  destruct (decide (n = 0)) as [? | _]; [lia | ].
  destruct (decide (n / 10 = 0)) as [? | _]; [lia | ].
  rewrite pretty_N_go_step by lia. apply pretty_N_go_app.
Qed.

Lemma low_digits_zero (k : nat) : low_digits k 0 = str_repeat "0" k.
Proof.
  induction k as [ | k IH]; [reflexivity | ].
  cbn [low_digits]. change (0 / 10) with 0. rewrite IH.
  clear. induction k as [ | k IH]; [reflexivity | ].
  cbn [str_repeat]. rewrite append_assoc, IH. reflexivity.
Qed.

Lemma pretty_length_pos (n : N) : (0 < String.length (pretty n))%nat.
Proof.
  destruct (N.lt_ge_cases n 10) as [Hlt | Hge].
  - rewrite pretty_digit by exact Hlt. cbn. lia.
  - rewrite pretty_tens by exact Hge. rewrite length_append. cbn. lia.
Qed.

Lemma zero_pad_low_digits (k : nat) (n : N) :
  n < 10 ^ N.of_nat k -> (0 < k)%nat ->
  zero_pad k (pretty n) = low_digits k n.
Proof.
  revert n. induction k as [ | k IH]; intros n Hn Hk; [lia | ].
  cbn [low_digits].
  destruct (N.lt_ge_cases n 10) as [Hlt | Hge].
  - rewrite pretty_digit by exact Hlt. unfold zero_pad.
    cbn [String.length]. replace (S k - 1)%nat with k by lia.
    rewrite N.div_small, N.mod_small by lia. now rewrite low_digits_zero.
  - rewrite pretty_tens by exact Hge.
    assert (Hk' : (0 < k)%nat).
    { destruct k; [ | lia]. cbn in Hn. lia. }
    assert (Hdiv : n / 10 < 10 ^ N.of_nat k).
    { apply N.Div0.div_lt_upper_bound.
      rewrite Nat2N.inj_succ, N.pow_succ_r' in Hn. lia. }
    rewrite <- (IH (n / 10) Hdiv Hk'). unfold zero_pad.
    rewrite length_append. cbn [String.length].
    replace (S k - (String.length (pretty (n / 10)%N) + 1))%nat
      with (k - String.length (pretty (n / 10)%N))%nat by lia.
    now rewrite append_assoc.
Qed.

Lemma low_digits_length (k : nat) (n : N) : String.length (low_digits k n) = k.
Proof.
  revert n. induction k as [ | k IH]; intros n; [reflexivity | ].
  cbn [low_digits]. rewrite length_append, IH. cbn. lia.
Qed.

Lemma digit_value_char (d : N) : d < 10 -> digit_value (pretty_N_char d) = d.
Proof.
  intros Hd.
  assert (d = 0 \/ d = 1 \/ d = 2 \/ d = 3 \/ d = 4 \/ d = 5 \/ d = 6 \/
          d = 7 \/ d = 8 \/ d = 9) as Hcases by lia.
  repeat destruct Hcases as [-> | Hcases]; try reflexivity.
  subst d. reflexivity.
Qed.

Lemma decimal_value_from_append (acc : N) (a b : string) :
  decimal_value_from acc (a +:+ b) =
  decimal_value_from (decimal_value_from acc a) b.
Proof.
  revert acc. induction a as [ | c a IH]; intros acc; [reflexivity | ].
  change (decimal_value_from (acc * 10 + digit_value c) (a +:+ b) =
          decimal_value_from (decimal_value_from (acc * 10 + digit_value c) a) b).
  apply IH.
Qed.

Lemma low_digits_value (k : nat) (n : N) :
  n < 10 ^ N.of_nat k -> decimal_value (low_digits k n) = n.
Proof.
  revert n. induction k as [ | k IH]; intros n Hn.
  - cbn in Hn. assert (n = 0) as -> by lia. reflexivity.
  - cbn [low_digits]. unfold decimal_value.
    rewrite decimal_value_from_append. fold (decimal_value (low_digits k (n / 10))).
    rewrite IH.
    + cbn [decimal_value_from]. rewrite digit_value_char by (apply N.mod_lt; lia).
      rewrite (N.div_mod n 10) at 3 by lia. lia.
    + apply N.Div0.div_lt_upper_bound.
      rewrite Nat2N.inj_succ, N.pow_succ_r' in Hn. lia.
Qed.



Lemma two_digit_field (n : N) :
  n < 100 ->
  String.length (zero_pad 2 (pretty n)) = 2%nat /\
  decimal_value (zero_pad 2 (pretty n)) = n.
Proof.
  intros Hn. rewrite (zero_pad_low_digits 2 n) by (cbn; lia).
  split; [apply low_digits_length | apply low_digits_value; cbn; lia].
Qed.

Lemma four_digit_field (n : N) :
  n < 10000 ->
  String.length (zero_pad 4 (pretty n)) = 4%nat /\
  decimal_value (zero_pad 4 (pretty n)) = n.
Proof.
  intros Hn. rewrite (zero_pad_low_digits 4 n) by (cbn; lia).
  split; [apply low_digits_length | apply low_digits_value; cbn; lia].
Qed.

End DigitFacts.

(** ** Formatting *)

Section FormattingFacts.

Local Open Scope Z_scope.
Import F64 F64Facts.



End FormattingFacts.

(** ** Date stamps and paths *)

Lemma strftime_Ymd_length (t : DateTime) :
  stamp_fits t -> String.length (strftime_Ymd t) = 8%nat.
Proof.
  intros (Hy & Hm & Hd). unfold strftime_Ymd. rewrite !length_append.
  destruct (four_digit_field _ Hy) as [-> _].
  destruct (two_digit_field _ Hm) as [-> _].
  destruct (two_digit_field _ Hd) as [-> _]. reflexivity.
Qed.

Lemma strftime_Ymd_inj (t1 t2 : DateTime) :
  stamp_fits t1 -> stamp_fits t2 ->
  strftime_Ymd t1 = strftime_Ymd t2 ->
  year t1 = year t2 /\ month t1 = month t2 /\ day t1 = day t2.
Proof.
  intros (Hy1 & Hm1 & Hd1) (Hy2 & Hm2 & Hd2). unfold strftime_Ymd. intros Heq.
  destruct (two_digit_field _ Hm1) as [Lm1 Vm1].
  destruct (two_digit_field _ Hm2) as [Lm2 Vm2].
  destruct (two_digit_field _ Hd1) as [Ld1 Vd1].
  destruct (two_digit_field _ Hd2) as [Ld2 Vd2].
  destruct (four_digit_field _ Hy1) as [_ Vy1].
  destruct (four_digit_field _ Hy2) as [_ Vy2].
  apply append_inj_length in Heq as [Ey Heq];
    [ | rewrite !length_append; congruence].
  apply append_inj_length in Heq as [Em Ed]; [ | congruence].
  rewrite <- Vy1, <- Vy2, <- Vm1, <- Vm2, <- Vd1, <- Vd2, Ey, Em, Ed. auto.
Qed.

(** *** Names without separator and the directory of a path *)

Lemma slash_free_append (a b : string) :
  slash_free (a +:+ b) = slash_free a && slash_free b.
Proof.
  induction a as [ | c a IH]; [reflexivity | ].
  change (negb (Ascii.eqb c "/") && slash_free (a +:+ b) =
          negb (Ascii.eqb c "/") && slash_free a && slash_free b).
  rewrite IH. now rewrite andb_assoc.
Qed.

Lemma parent_dir_slash_free (s : string) :
  slash_free s = true -> parent_dir s = None.
Proof.
  induction s as [ | c s IH]; [reflexivity | ].
  cbn [slash_free parent_dir]. intros [Hc Hs]%andb_prop.
  rewrite (IH Hs). now destruct (Ascii.eqb c "/").
Qed.

Lemma parent_dir_append (a rest : string) :
  slash_free rest = true -> parent_dir (a +:+ "/" +:+ rest) = Some a.
Proof.
  intros Hrest. induction a as [ | c a IH].
  - change (parent_dir (String "/" rest) = Some "").
    cbn [parent_dir]. now rewrite (parent_dir_slash_free rest Hrest).
  - change (parent_dir (String c (a +:+ "/" +:+ rest)) = Some (String c a)).
    cbn [parent_dir]. now rewrite IH.
Qed.

Lemma pretty_N_char_not_slash (d : N) : Ascii.eqb (pretty_N_char d) "/" = false.
Proof. unfold pretty_N_char. repeat case_match; reflexivity. Qed.

Lemma slash_free_pretty_N_go (x : N) (s : string) :
  slash_free (pretty_N_go x s) = slash_free s.
Proof.
  revert s. induction (N.lt_wf_0 x) as [x _ IH]. intros s.
  destruct (N.eq_dec x 0%N) as [-> | Hx]; [reflexivity | ].
  rewrite pretty_N_go_step by lia.
  rewrite IH by (apply N.div_lt; lia).
  cbn [slash_free]. now rewrite pretty_N_char_not_slash.
Qed.

Lemma slash_free_pretty (n : N) : slash_free (pretty n) = true.
Proof.
  unfold pretty, pretty_N. destruct (decide (n = 0%N)); [reflexivity | ].
  apply slash_free_pretty_N_go.
Qed.

Lemma slash_free_zero_pad (width : nat) (s : string) :
  slash_free (zero_pad width s) = slash_free s.
Proof.
  unfold zero_pad. rewrite slash_free_append.
  induction (width - String.length s)%nat as [ | k IH]; [reflexivity | ].
  cbn [str_repeat]. rewrite slash_free_append in *. exact IH.
Qed.

Lemma slash_free_strftime_Ymd (t : DateTime) : slash_free (strftime_Ymd t) = true.
Proof.
  unfold strftime_Ymd.
  now rewrite !slash_free_append, !slash_free_zero_pad, !slash_free_pretty.
Qed.

Lemma nul_free_append (a b : string) :
  nul_free (a +:+ b) = nul_free a && nul_free b.
Proof.
  induction a as [ | c a IH]; [reflexivity | ].
  change (negb (Ascii.eqb c Ascii.zero) && nul_free (a +:+ b) =
          negb (Ascii.eqb c Ascii.zero) && nul_free a && nul_free b).
  rewrite IH. now rewrite andb_assoc.
Qed.

Lemma pretty_N_char_not_nul (d : N) :
  Ascii.eqb (pretty_N_char d) Ascii.zero = false.
Proof. unfold pretty_N_char. repeat case_match; reflexivity. Qed.

Lemma nul_free_pretty_N_go (x : N) (s : string) :
  nul_free (pretty_N_go x s) = nul_free s.
Proof.
  revert s. induction (N.lt_wf_0 x) as [x _ IH]. intros s.
  destruct (N.eq_dec x 0%N) as [-> | Hx]; [reflexivity | ].
  rewrite pretty_N_go_step by lia.
  rewrite IH by (apply N.div_lt; lia).
  cbn [nul_free]. now rewrite pretty_N_char_not_nul.
Qed.

Lemma nul_free_pretty (n : N) : nul_free (pretty n) = true.
Proof.
  unfold pretty, pretty_N. destruct (decide (n = 0%N)); [reflexivity | ].
  apply nul_free_pretty_N_go.
Qed.

Lemma nul_free_zero_pad (width : nat) (s : string) :
  nul_free (zero_pad width s) = nul_free s.
Proof.
  unfold zero_pad. rewrite nul_free_append.
  induction (width - String.length s)%nat as [ | k IH]; [reflexivity | ].
  cbn [str_repeat]. rewrite nul_free_append in *. exact IH.
Qed.

Lemma nul_free_strftime_Ymd (t : DateTime) : nul_free (strftime_Ymd t) = true.
Proof.
  unfold strftime_Ymd.
  now rewrite !nul_free_append, !nul_free_zero_pad, !nul_free_pretty.
Qed.

Lemma nul_free_csv_path (folder ticker : string) (t : DateTime) :
  nul_free folder = true -> nul_free ticker = true ->
  nul_free (csv_path folder ticker (strftime_Ymd t)) = true.
Proof.
  intros Hfolder Hticker. unfold csv_path.
  now rewrite !nul_free_append, Hfolder, Hticker, nul_free_strftime_Ymd.
Qed.

(** The target of [save_data] lies in the folder, for a ticker without
    separator. *)
Lemma parent_dir_csv_path (folder ticker : string) (t : DateTime) :
  slash_free ticker = true ->
  parent_dir (csv_path folder ticker (strftime_Ymd t)) = Some folder.
Proof.
  intros Hticker. unfold csv_path. apply parent_dir_append.
  now rewrite !slash_free_append, Hticker, slash_free_strftime_Ymd.
Qed.

Lemma csv_path_inj (folder t1 t2 s1 s2 : string) :
  String.length s1 = String.length s2 ->
  csv_path folder t1 s1 = csv_path folder t2 s2 ->
  t1 = t2 /\ s1 = s2.
Proof.
  intros Hlen Heq. unfold csv_path in Heq.
  apply append_inj_l in Heq.
  change (String "/" (t1 +:+ "_" +:+ s1 +:+ ".csv") =
          String "/" (t2 +:+ "_" +:+ s2 +:+ ".csv")) in Heq.
  injection Heq as Heq.
  apply append_inj_length in Heq as [Et Heq].
  - split; [exact Et | ].
    change (String "_" (s1 +:+ ".csv") = String "_" (s2 +:+ ".csv")) in Heq.
    injection Heq as Heq.
    now apply append_inj_length in Heq as [Es _].
  - change (S (String.length (s1 +:+ ".csv")) = S (String.length (s2 +:+ ".csv"))).
    rewrite !length_append. lia.
Qed.

(** ** Runs of the script's functions *)

Local Open Scope list_scope.

Ltac world_eq :=
  unfold emit, logged, at_time; cbn [stdout dirs files clock calls];
  repeat rewrite <- app_assoc; cbn [app]; try reflexivity.

Lemma emit_nil (w : World) : emit [] w = w.
Proof. destruct w. unfold emit. cbn. now rewrite app_nil_r. Qed.

Lemma emit_emit (l1 l2 : list string) (w : World) :
  emit l2 (emit l1 w) = emit (l1 ++ l2) w.
Proof. world_eq. Qed.

Lemma print_all_run (lines : list string) (w : World) :
  print_all lines w = (Ok tt, emit lines w).
Proof.
  revert w. induction lines as [ | line rest IH]; intros w.
  - cbn. now rewrite emit_nil.
  - cbn [print_all]. unfold bind, print. rewrite IH, emit_emit. reflexivity.
Qed.

Lemma banner_run (w : World) :
  banner w =
  (Ok tt, emit [str_repeat "=" 50; "Stock Data Fetcher"; str_repeat "=" 50] w).
Proof. unfold banner, bind, print. f_equal. world_eq. Qed.

(** The chain of directories ends with the path itself. *)
Lemma dir_chain_whole (seen rest : string) :
  (seen +:+ rest) ∈ dir_chain seen rest.
Proof.
  revert seen. induction rest as [ | c rest IH]; intros seen.
  - cbn. rewrite append_empty_r. apply list_elem_of_here.
  - cbn [dir_chain]. destruct (Ascii.eqb c "/") eqn:Hc.
    + apply Ascii.eqb_eq in Hc. subst c. apply list_elem_of_further.
      specialize (IH (seen +:+ "/")). now rewrite append_assoc in IH.
    + specialize (IH (seen +:+ String c "")). now rewrite append_assoc in IH.
Qed.

Lemma dirs_with_folder (folder : string) (w : World) :
  folder ∈ dirs_with folder w.
Proof.
  unfold dirs_with. destruct (decide (folder ∈ dirs w)) as [Hin | Hout]; [exact Hin | ].
  apply elem_of_union_r, elem_of_list_to_set.
  exact (dir_chain_whole "" folder).
Qed.

(** A prefix of a path that ends before a ["/"] is in its chain. *)
Lemma dir_chain_prefix (seen before rest : string) :
  (seen +:+ before) ∈ dir_chain seen (before +:+ "/" +:+ rest).
Proof.
  revert seen. induction before as [ | c before IH]; intros seen.
  - rewrite append_empty_r. change (seen ∈ dir_chain seen (String "/" rest)).
    cbn [dir_chain]. change (Ascii.eqb "/" "/") with true. cbv iota.
    apply list_elem_of_here.
  - change (seen +:+ String c before
            ∈ dir_chain seen (String c (before +:+ "/" +:+ rest))).
    cbn [dir_chain]. destruct (Ascii.eqb c "/") eqn:Hc.
    + apply Ascii.eqb_eq in Hc. subst c. apply list_elem_of_further.
      specialize (IH (seen +:+ "/")). now rewrite append_assoc in IH.
    + specialize (IH (seen +:+ String c "")). now rewrite append_assoc in IH.
Qed.

(** Nothing else is in the chain. *)
Lemma dir_chain_inv (seen rest d : string) :
  d ∈ dir_chain seen rest ->
  d = seen +:+ rest \/
  exists before after, rest = before +:+ "/" +:+ after /\ d = seen +:+ before.
Proof.
  revert seen. induction rest as [ | c rest IH]; intros seen Hd.
  - cbn in Hd. apply list_elem_of_singleton in Hd. left.
    now rewrite append_empty_r.
  - cbn [dir_chain] in Hd. destruct (Ascii.eqb c "/") eqn:Hc.
    + apply Ascii.eqb_eq in Hc. subst c.
      apply elem_of_cons in Hd as [-> | Hd].
      * right. exists "", rest. split; [reflexivity | now rewrite append_empty_r].
      * apply IH in Hd as [-> | (before & after & -> & ->)].
        -- left. now rewrite append_assoc.
        -- right. exists (String "/" before), after.
           split; [reflexivity | now rewrite append_assoc].
    + apply IH in Hd as [-> | (before & after & -> & ->)].
      * left. now rewrite append_assoc.
      * right. exists (String c before), after.
        split; [reflexivity | now rewrite append_assoc].
Qed.

(** The directories after [os.makedirs(folder, exist_ok=True)]: those
    there were, and when the folder was missing, the folder and every
    directory above it. *)
Lemma dirs_with_elem (folder d : string) (w : World) :
  d ∈ dirs_with folder w <->
  d ∈ dirs w \/
  ((folder ∉ dirs w) /\
   (d = folder \/ exists rest, folder = d +:+ "/" +:+ rest)).
Proof.
  unfold dirs_with. destruct (decide (folder ∈ dirs w)) as [Hin | Hout].
  - split; [now left | ]. intros [Hd | [Hout _]]; [exact Hd | contradiction].
  - rewrite elem_of_union, elem_of_list_to_set. split.
    + intros [Hd | Hd]; [now left | ]. right. split; [exact Hout | ].
      apply dir_chain_inv in Hd as [-> | (before & after & -> & ->)].
      * now left.
      * right. now exists after.
    + intros [Hd | [_ [-> | [rest ->]]]]; [now left | | ]; right.
      * exact (dir_chain_whole "" folder).
      * exact (dir_chain_prefix "" d rest).
Qed.

Lemma os_makedirs_run (folder : string) (w : World) :
  folder <> "" ->
  nul_free folder = true ->
  os_makedirs folder true w =
  (Ok tt, mkWorld (stdout w) (dirs_with folder w) (files w) (clock w)
            (calls w ++ [call_makedirs folder true])).
Proof.
  intros Hfolder Hnul. unfold os_makedirs, dirs_with.
  apply String.eqb_neq in Hfolder. rewrite Hfolder, Hnul. cbn [negb].
  cbn [logged stdout dirs files clock calls].
  now destruct (decide (folder ∈ dirs w)).
Qed.

Lemma os_makedirs_empty_name (exist_ok : bool) (w : World) :
  os_makedirs "" exist_ok w =
  (Raise (mkExn "FileNotFoundError" "[Errno 2] No such file or directory: ''"),
   logged [call_makedirs "" exist_ok] w).
Proof. reflexivity. Qed.

Lemma write_file_run (path text : string) (w : World) :
  parent_exists path (logged [call_to_csv path] w) = true ->
  nul_free path = true ->
  write_file path text w =
  (Ok tt, mkWorld (stdout w) (dirs w) (<[path := text]> (files w)) (clock w)
            (calls w ++ [call_to_csv path])).
Proof. intros Hparent Hnul. unfold write_file. now rewrite Hparent, Hnul. Qed.

Section ScriptFacts.

Context `{Externals}.

Lemma field_text (field : option pyval) :
  Spec.field_or_placeholder field = py_str (or_default (PyStr "N/A") field).
Proof. now destruct field as [[] | ]. Qed.

Lemma get_stock_info_run (ticker : string) (w : World) :
  get_stock_info ticker w =
  (Ok tt, emit (Spec.profile_report ticker (yf_info ticker))
            (logged [call_info ticker] w)).
Proof.
  unfold get_stock_info, try_except, bind, stock_info, print.
  destruct (yf_info ticker) as [info | e]; cbn [Spec.profile_report].
  - rewrite !field_text.
    destruct (marketCap info) as [[ | | [] | | ] | ];
      cbn [py_format_comma Spec.market_cap_text ret or_default];
      f_equal; world_eq.
  - f_equal.
Qed.

Lemma fetch_stock_data_run (ticker period interval : string) (w : World) :
  fetch_stock_data ticker period interval w =
  (Ok (Spec.fetch_result (yf_history ticker period interval)),
   emit (("Fetching data for " +:+ ticker +:+ "...") ::
         Spec.fetch_notice ticker (yf_history ticker period interval))
     (logged [call_history ticker period interval] w)).
Proof.
  unfold fetch_stock_data, try_except, bind, stock_history, print.
  cbn [emit logged stdout dirs files clock calls].
  destruct (yf_history ticker period interval) as [[ | first rest] | e];
    cbn [Spec.fetch_result Spec.fetch_notice empty index_first index_last ret];
    f_equal; world_eq.
Qed.

Lemma save_data_run (table : Table) (ticker folder : string) (w : World) :
  empty table = false ->
  folder <> "" ->
  nul_free folder = true ->
  slash_free ticker = true ->
  nul_free ticker = true ->
  let path := csv_path folder ticker (strftime_Ymd (clock w)) in
  save_data (Some table) ticker folder w =
  (Ok tt,
   mkWorld
     (stdout w ++ [ "Data saved to: " +:+ path;
                    "File size: " +:+ size_kb (String.length (to_csv table)) +:+ " KB" ])
     (dirs_with folder w)
     (<[path := to_csv table]> (files w))
     (clock w)
     (calls w ++ [ call_makedirs folder true; call_now; call_to_csv path;
                   call_getsize path ])).
Proof.
  intros Hrows Hfolder Hnul Hticker Hnul' path. unfold save_data. rewrite Hrows.
  unfold bind at 1. rewrite (os_makedirs_run folder w Hfolder Hnul).
  unfold bind at 1, datetime_now. cbn [logged stdout dirs files clock calls].
  unfold bind at 1. fold path. rewrite write_file_run.
  - unfold bind, os_path_getsize, print.
    cbn [logged emit stdout dirs files clock calls].
    rewrite lookup_insert_eq. f_equal. world_eq.
  - unfold parent_exists, path. rewrite parent_dir_csv_path by exact Hticker.
    cbn [logged dirs]. apply orb_true_intro. right.
    apply bool_decide_eq_true, dirs_with_folder.
  - now apply nul_free_csv_path.
Qed.

(** Whatever happens, [save_data] writes at most its target, removes no
    directory and leaves the clock alone. *)
Lemma save_data_frame (data : option Table) (ticker folder : string)
    (w : World) :
  let path := csv_path folder ticker (strftime_Ymd (clock w)) in
  let w' := snd (save_data data ticker folder w) in
  (files w' = files w \/ exists text, files w' = <[path := text]> (files w)) /\
  (forall d, d ∈ dirs w -> d ∈ dirs w') /\
  clock w' = clock w.
Proof.
  intros path w'. subst w'.
  remember (save_data data ticker folder w) as run eqn:Hrun.
  destruct data as [table | ]; [ | subst run; cbn; auto].
  unfold save_data in Hrun.
  destruct (empty table); [subst run; cbn; auto | ].
  unfold bind at 1 in Hrun.
  destruct (String.eqb folder "") eqn:Hfolder.
  { apply String.eqb_eq in Hfolder. subst folder run. cbn. auto. }
  apply String.eqb_neq in Hfolder.
  destruct (nul_free folder) eqn:Hnul.
  2: { unfold os_makedirs in Hrun. apply String.eqb_neq in Hfolder.
       rewrite Hfolder, Hnul in Hrun. cbn [negb] in Hrun. subst run.
       cbn [snd logged stdout dirs files clock calls].
       split; [now left | split; [ | reflexivity]].
       intros d Hd. now apply elem_of_union_l. }
  rewrite (os_makedirs_run folder w Hfolder Hnul) in Hrun.
  unfold bind at 1, datetime_now in Hrun.
  cbn [logged stdout dirs files clock calls] in Hrun.
  unfold bind at 1, write_file in Hrun.
  cbn [logged stdout dirs files clock calls] in Hrun.
  fold path in Hrun.
  assert (Hdirs : forall d, d ∈ dirs w -> d ∈ dirs_with folder w).
  { intros d Hd. apply dirs_with_elem. now left. }
  destruct (parent_exists path _); [destruct (nul_free path) | ].
  - unfold bind, print, os_path_getsize in Hrun.
    cbn [logged emit stdout dirs files clock calls] in Hrun.
    rewrite lookup_insert_eq in Hrun. subst run. cbn [snd files dirs clock].
    split; [right; eexists; reflexivity | split; [exact Hdirs | reflexivity]].
  - subst run. cbn [snd files dirs clock].
    split; [left; reflexivity | split; [exact Hdirs | reflexivity]].
  - subst run. cbn [snd files dirs clock].
    split; [left; reflexivity | split; [exact Hdirs | reflexivity]].
Qed.

Lemma fetch_result_some (answer : outcome Table) (table : Table) :
  Spec.fetch_result answer = Some table ->
  answer = Ok table /\ empty table = false.
Proof.
  destruct answer as [t | e]; cbn; [ | discriminate].
  destruct (empty t) eqn:Ht; [discriminate | ].
  intros [= <-]. auto.
Qed.

Lemma main_unfold (w : World) :
  main w =
  match fetch_stock_data "JPM" "1y" "1d" (before_fetch w) with
  | (Ok (Some table), w1) =>
      let stats := describe (closes table) in
      match save_data (Some table) "JPM" "data"
              (emit ([ nl +:+ "First 5 rows of data:";
                       show_frame (firstn 5 table);
                       nl +:+ "Basic Statistics:" ] ++
                     stats_lines stats ++ story_lines "JPM" stats)
                 (logged [call_describe] w1)) with
      | (Ok _, w2) => (Ok tt, emit [success_marker] w2)
      | (Raise e, w2) => (Raise e, w2)
      end
  | (Ok None, w1) => (Ok tt, emit [failure_marker] w1)
  | (Raise e, w1) => (Raise e, w1)
  end.
Proof.
  unfold main, before_fetch, bind at 1 2 3.
  rewrite banner_run. cbn [snd]. rewrite get_stock_info_run. cbn [snd].
  destruct (fetch_stock_data "JPM" "1y" "1d" _) as [[[table | ] | e] w1];
    [ | reflexivity | reflexivity].
  unfold series_describe. unfold bind, print, log, ret. cbv beta iota.
  rewrite print_all_run. cbv beta iota. rewrite print_all_run. cbv beta iota.
  match goal with
  | |- match save_data _ _ _ ?a with _ => _ end =
       match save_data _ _ _ ?b with _ => _ end =>
      replace a with b by world_eq
  end.
  reflexivity.
Qed.

Lemma fetch_some_nonempty (ticker period interval : string) (w w1 : World)
    (table : Table) :
  fetch_stock_data ticker period interval w = (Ok (Some table), w1) ->
  yf_history ticker period interval = Ok table /\ empty table = false.
Proof.
  rewrite fetch_stock_data_run. intros [= Hr _]. now apply fetch_result_some.
Qed.

Lemma main_success_run (w w1 : World) (table : Table) :
  fetch_stock_data "JPM" "1y" "1d" (before_fetch w) = (Ok (Some table), w1) ->
  let path := csv_path "data" "JPM" (strftime_Ymd (clock w1)) in
  exists w2,
    main w = (Ok tt, w2) /\
    stdout w2 =
      stdout w1 ++ summary_lines table ++
      [ "Data saved to: " +:+ path;
        "File size: " +:+ size_kb (String.length (to_csv table)) +:+ " KB";
        success_marker ] /\
    dirs w2 = dirs_with "data" w1 /\
    files w2 = <[path := to_csv table]> (files w1) /\
    calls w2 =
      calls w1 ++ [ call_describe; call_makedirs "data" true; call_now;
                    call_to_csv path; call_getsize path ].
Proof.
  intros Hfetch path.
  destruct (fetch_some_nonempty _ _ _ _ _ _ Hfetch) as [_ Hrows].
  rewrite main_unfold, Hfetch. cbv zeta.
  rewrite save_data_run by first [exact Hrows | discriminate | reflexivity].
  eexists. split; [reflexivity | ].
  unfold summary_lines, dirs_with.
  cbn [emit logged stdout dirs files clock calls].
  repeat split; repeat rewrite <- app_assoc; reflexivity.
Qed.

Lemma main_failure_run (w w1 : World) :
  fetch_stock_data "JPM" "1y" "1d" (before_fetch w) = (Ok None, w1) ->
  main w = (Ok tt, emit [failure_marker] w1).
Proof. intros Hfetch. now rewrite main_unfold, Hfetch. Qed.

(** What a run of [main] leaves behind, by the answer of the client. *)
Lemma before_fetch_world (w : World) :
  before_fetch w =
  emit ([str_repeat "=" 50; "Stock Data Fetcher"; str_repeat "=" 50] ++
        Spec.profile_report "JPM" (yf_info "JPM"))
    (logged [call_info "JPM"] w).
Proof.
  unfold before_fetch. rewrite banner_run. cbn [snd].
  rewrite get_stock_info_run. cbn [snd]. world_eq.
Qed.

Lemma main_effects (w : World) :
  let w' := snd (main w) in
  let path := csv_path "data" "JPM" (strftime_Ymd (clock w)) in
  clock w' = clock w /\
  match Spec.fetch_result (yf_history "JPM" "1y" "1d") with
  | Some table =>
      files w' = <[path := to_csv table]> (files w) /\
      dirs w' = dirs_with "data" w /\
      calls w' =
        calls w ++ [ call_info "JPM"; call_history "JPM" "1y" "1d";
                     call_describe; call_makedirs "data" true; call_now;
                     call_to_csv path; call_getsize path ] /\
      List.last (stdout w') "" = success_marker
  | None =>
      files w' = files w /\ dirs w' = dirs w /\
      calls w' = calls w ++ [ call_info "JPM"; call_history "JPM" "1y" "1d" ] /\
      List.last (stdout w') "" = failure_marker
  end.
Proof.
  intros w' path. subst w'.
  pose proof (fetch_stock_data_run "JPM" "1y" "1d" (before_fetch w)) as Hfetch.
  rewrite main_unfold, Hfetch.
  destruct (Spec.fetch_result (yf_history "JPM" "1y" "1d")) as [table | ] eqn:Hr.
  - apply fetch_result_some in Hr as [_ Hrows]. cbv zeta.
    rewrite save_data_run by first [exact Hrows | discriminate | reflexivity].
    rewrite before_fetch_world. unfold dirs_with.
    cbn [snd emit logged stdout dirs files clock calls]. fold path.
    repeat split.
    + now rewrite <- !app_assoc.
    + rewrite !app_assoc. apply last_last.
  - rewrite before_fetch_world.
    cbn [snd emit logged stdout dirs files clock calls].
    repeat split.
    + now rewrite <- app_assoc.
    + rewrite !app_assoc. apply last_last.
Qed.


(** ** The claims *)

(** [fetch_stock_data] always returns, and what it returns is decided by
    the client's answer alone. *)
Lemma fetch_returns (ticker period interval : string) (w : World) :
  fst (fetch_stock_data ticker period interval w) =
  Ok (Spec.fetch_result (yf_history ticker period interval)).
Proof. now rewrite fetch_stock_data_run. Qed.

(** C3: when the fetch step returns the Empty result, [main] runs neither
    the summarizer (no call to [describe]) nor the persister (directories
    and files untouched, no filesystem call) and the failure marker is the
    last line printed; when the fetch step returns a table, [main] prints
    the preview, the eight statistics with their explanations and the
    story, writes the table to the dated file under [data] and prints the
    success marker last.  One of the two always happens: [main] itself
    never raises. *)
Theorem main_gated_by_fetch (w : World) :
  exists (data : option Table) (w1 : World),
    fetch_stock_data "JPM" "1y" "1d" (before_fetch w) = (Ok data, w1) /\
    match data with
    | None =>
        exists w2,
          main w = (Ok tt, w2) /\
          stdout w2 = stdout w1 ++ [ nl +:+ "❌ Failed to fetch data" ] /\
          dirs w2 = dirs w1 /\ files w2 = files w1 /\ calls w2 = calls w1
    | Some table =>
        let stats := describe (map close table) in
        let range := F64.sub (s_max stats) (s_min stats) in
        let percent := F64.mul (F64.div range (s_min stats)) (F64.of_Z 100) in
        let volatility :=
          F64.mul (F64.div (s_std stats) (s_mean stats)) (F64.of_Z 100) in
        let path := "data/JPM_" +:+ strftime_Ymd (clock w1) +:+ ".csv" in
        exists w2,
          main w = (Ok tt, w2) /\
          stdout w2 =
            stdout w1 ++
            [ nl +:+ "First 5 rows of data:";
              show_frame (firstn 5 table);
              nl +:+ "Basic Statistics:";
              nl +:+ "count: " +:+ format_f 6 (F64.of_Z (Z.of_N (s_count stats)));
              "What it means: The number of data points (trading days) in your dataset.";
              nl +:+ "mean: " +:+ format_f 6 (s_mean stats);
              "What it means: The average closing price across all " +:+
                pretty (s_count stats) +:+ " days.";
              nl +:+ "std: " +:+ format_f 6 (s_std stats) +:+ " (Standard Deviation)";
              "What it means: How much the stock price varies or spreads out from the average.";
              nl +:+ "min: " +:+ format_f 6 (s_min stats);
              "What it means: The lowest closing price in the dataset.";
              nl +:+ "25%: " +:+ format_f 6 (s_p25 stats) +:+ " (First Quartile)";
              "What it means: 25% of the days, the stock closed at or below $" +:+
                format_f 2 (s_p25 stats) +:+ ".";
              nl +:+ "50%: " +:+ format_f 6 (s_p50 stats) +:+ " (Median)";
              "What it means: The middle value. Half the days were above this price, half were below.";
              nl +:+ "75%: " +:+ format_f 6 (s_p75 stats) +:+ " (Third Quartile)";
              "What it means: 75% of the days, the stock closed at or below $" +:+
                format_f 2 (s_p75 stats) +:+ ".";
              nl +:+ "max: " +:+ format_f 6 (s_max stats);
              "What it means: The highest closing price in the dataset.";
              nl +:+ "============================================================";
              "Putting It All Together - The Story";
              "============================================================";
              "These stats tell us:";
              "1. JPM averaged $" +:+ format_f 0 (s_mean stats) +:+ " over the year";
              "2. Prices ranged from $" +:+ format_f 0 (s_min stats) +:+ " to $" +:+
                format_f 0 (s_max stats) +:+ " - that's a $" +:+ format_f 0 range +:+
                " spread (about " +:+ format_f 0 percent +:+
                "% increase from low to high!)";
              "3. Most days (50% of them) the stock was between $" +:+
                format_f 0 (s_p25 stats) +:+ " and $" +:+ format_f 0 (s_p75 stats) +:+
                " (the 25%-75% range)";
              "4. Standard deviation of $" +:+ format_f 0 (s_std stats) +:+
                " means daily prices typically varied by about " +:+
                format_f 0 volatility +:+ "% from average";
              "Data saved to: " +:+ path;
              "File size: " +:+
                format_f 2 (F64.div (F64.of_Z (Z.of_nat (String.length (to_csv table))))
                              (F64.of_Z 1024)) +:+ " KB";
              nl +:+ "✅ Data fetch complete!" ] /\
          "data" ∈ dirs w2 /\
          files w2 = <[path := to_csv table]> (files w1) /\
          calls w2 =
            calls w1 ++ [ call_describe; call_makedirs "data" true; call_now;
                          call_to_csv path; call_getsize path ]
    end.
Proof.
  destruct (fetch_stock_data "JPM" "1y" "1d" (before_fetch w))
    as [[data | e] w1] eqn:Hfetch.
  2: { pose proof (fetch_returns "JPM" "1y" "1d" (before_fetch w)) as Hr.
       rewrite Hfetch in Hr. discriminate Hr. }
  exists data, w1. split; [reflexivity | ].
  destruct data as [table | ].
  - destruct (main_success_run w w1 table Hfetch)
      as (w2 & Hmain & Hout & Hdirs & Hfiles & Hcalls).
    exists w2. split; [exact Hmain | ]. split; [exact Hout | ].
    split; [rewrite Hdirs; apply dirs_with_folder | ].
    split; [exact Hfiles | exact Hcalls].
  - exists (emit [failure_marker] w1).
    split; [now apply main_failure_run | repeat split].
Qed.

(** C4: the derived values of the story are the specification's:
    [price_range = max - min], [percent_increase = price_range / min * 100],
    [iqr_range = p75 - p25], [volatility_percent = std / mean * 100], over
    the statistics of the closing prices of the table, and the story that
    [main] prints is written with these values. *)
Theorem narrative_metrics_as_specified (table : Table) :
  let stats := describe (closes table) in
  let spec := Spec.narrative stats in
  price_range stats = Spec.n_price_range spec /\
  percent_increase stats = Spec.n_percent_increase spec /\
  iqr_range stats = Spec.n_iqr_range spec /\
  volatility_percent stats = Spec.n_volatility_percent spec /\
  story_lines "JPM" stats =
    [ nl +:+ str_repeat "=" 60; "Putting It All Together - The Story";
      str_repeat "=" 60; "These stats tell us:";
      story_1 "JPM" stats;
      story_2 stats (Spec.n_price_range spec) (Spec.n_percent_increase spec);
      story_3 stats;
      story_4 stats (Spec.n_volatility_percent spec) ].
Proof. cbv zeta. repeat split. Qed.


(** C9: [fetch_stock_data] returns either [None] or a table with at least
    one row, the one the client answered; it never raises and never hands
    a zero-row table to its caller. *)
Theorem fetch_result_none_or_nonempty (ticker period interval : string)
    (w : World) :
  exists (data : option Table) (w' : World),
    fetch_stock_data ticker period interval w = (Ok data, w') /\
    match data with
    | None => True
    | Some table =>
        table <> [] /\ yf_history ticker period interval = Ok table
    end.
Proof.
  rewrite fetch_stock_data_run. eexists _, _. split; [reflexivity | ].
  destruct (Spec.fetch_result _) as [table | ] eqn:Hr; [ | exact I].
  apply fetch_result_some in Hr as [Hanswer Hrows].
  split; [ | exact Hanswer]. now destruct table.
Qed.

(** C10: with [None] or a zero-row table, [save_data] prints its notice
    and returns: no directory is created, no file is written or replaced,
    and no filesystem call is made. *)
Theorem save_data_no_data_no_effect (data : option Table)
    (ticker folder : string) (w : World) :
  data = None \/ data = Some [] ->
  exists w',
    save_data data ticker folder w = (Ok tt, w') /\
    stdout w' = stdout w ++ ["No data to save"] /\
    dirs w' = dirs w /\ files w' = files w /\ calls w' = calls w.
Proof.
  intros [-> | ->]; exists (emit ["No data to save"] w); repeat split.
Qed.



(** C8: for statistics whose minimum and maximum are finite floats with
    [min <= max], as [describe] gives for a table with at least one row of
    finite prices, the derived [price_range] is [max - min] and is not
    below zero. *)
Theorem price_range_nonneg (stats : Stats) :
  F64.valid (s_min stats) = true ->
  F64.valid (s_max stats) = true ->
  F64.is_finite (s_min stats) = true ->
  F64.is_finite (s_max stats) = true ->
  F64.leb (s_min stats) (s_max stats) = true ->
  price_range stats = F64.sub (s_max stats) (s_min stats) /\
  F64.leb F64.zero (price_range stats) = true.
Proof.
  intros Vmin Vmax Fmin Fmax Hle. split; [reflexivity | ].
  apply F64Facts.nonneg_leb. unfold price_range.
  now apply F64Facts.sub_nonneg.
Qed.

(** C1, as the code has it: when the lowest close is zero, nothing guards
    the division.  [percent_increase] is the IEEE result of dividing by
    zero: a NaN when the highest close is zero as well (or is a NaN
    itself), an infinity otherwise.  No division error is raised: [main]
    prints the story with that value, shown as [inf], [-inf] or [nan],
    then writes the table to the dated file and prints the success marker
    last. *)
Theorem zero_min_percent_increase_unguarded (w w1 : World) (table : Table) :
  fetch_stock_data "JPM" "1y" "1d" (before_fetch w) = (Ok (Some table), w1) ->
  let stats := describe (map close table) in
  let range := F64.sub (s_max stats) (s_min stats) in
  let percent := F64.mul (F64.div range (s_min stats)) (F64.of_Z 100) in
  let path := "data/JPM_" +:+ strftime_Ymd (clock w1) +:+ ".csv" in
  F64.eqb (s_min stats) F64.zero = true ->
  percent_increase stats = percent /\
  match s_max stats with
  | S754_zero _ | S754_nan => percent = S754_nan
  | S754_infinity _ | S754_finite _ _ _ => exists sign, percent = S754_infinity sign
  end /\
  In (format_f 0 percent) ["inf"; "-inf"; "nan"] /\
  exists w2,
    main w = (Ok tt, w2) /\
    ("2. Prices ranged from $" +:+ format_f 0 (s_min stats) +:+ " to $" +:+
       format_f 0 (s_max stats) +:+ " - that's a $" +:+ format_f 0 range +:+
       " spread (about " +:+ format_f 0 percent +:+
       "% increase from low to high!)") ∈ stdout w2 /\
    files w2 = <[path := to_csv table]> (files w1) /\
    List.last (stdout w2) "" = nl +:+ "✅ Data fetch complete!".
Proof.
  intros Hfetch stats range percent path Hmin.
  assert (Hpct : match s_max stats with
                 | S754_zero _ | S754_nan => percent = S754_nan
                 | S754_infinity _ | S754_finite _ _ _ =>
                     exists sign, percent = S754_infinity sign
                 end).
  { unfold percent, range.
    destruct (s_min stats) as [smin | [] | | [] mmin emin];
      try discriminate Hmin.
    destruct (s_max stats) as [smax | smax | | smax m e].
    - now destruct smax, smin.
    - destruct smax, smin; eexists; reflexivity.
    - reflexivity.
    - exists (xorb (xorb smax smin) false). reflexivity. }
  split; [reflexivity | ]. split; [exact Hpct | ]. split.
  - destruct (s_max stats) as [smax | smax | | smax m e].
    + rewrite Hpct. cbn. tauto.
    + destruct Hpct as [[] ->]; cbn; tauto.
    + rewrite Hpct. cbn. tauto.
    + destruct Hpct as [[] ->]; cbn; tauto.
  - destruct (main_success_run w w1 table Hfetch)
      as (w2 & Hmain & Hout & _ & Hfiles & _).
    exists w2. split; [exact Hmain | ]. split; [ | split; [exact Hfiles | ]].
    + rewrite Hout.
      apply elem_of_app. right. apply elem_of_app. left.
      unfold summary_lines. fold stats.
      apply elem_of_app. right. apply elem_of_app. right.
      unfold story_lines. cbv zeta.
      do 5 apply list_elem_of_further. apply list_elem_of_here.
    + rewrite Hout.
      match goal with
      | |- List.last (_ ++ _ ++ [?a; ?b; ?c]) _ = _ =>
          change [a; b; c] with ([a; b] ++ [c])
      end.
      rewrite !app_assoc. apply last_last.
Qed.

End ScriptFacts.

(** C2: when the client's history call raises, [fetch_stock_data] catches
    the exception, prints the error on the output stream and returns
    [None], the very result it returns for a client that answers with zero
    rows; it touches neither directories nor files and raises nothing. *)
Theorem fetch_catches_client_failure (failing rowless : Externals)
    (ticker period interval : string) (e : exn) (w : World) :
  @yf_history failing ticker period interval = Raise e ->
  @yf_history rowless ticker period interval = Ok [] ->
  exists w',
    @fetch_stock_data failing ticker period interval w = (Ok None, w') /\
    stdout w' =
      stdout w ++ [ "Fetching data for " +:+ ticker +:+ "...";
                    "Error fetching data: " +:+ exn_msg e ] /\
    dirs w' = dirs w /\ files w' = files w /\
    fst (@fetch_stock_data rowless ticker period interval w) =
    fst (@fetch_stock_data failing ticker period interval w).
Proof.
  intros Hfail Hrowless.
  rewrite !fetch_stock_data_run, Hfail, Hrowless.
  eexists. split; [reflexivity | ]. repeat split.
Qed.

(** ** Further properties *)

(** X1: whatever the client answers, [main] returns normally: no failure
    of a collaborator escapes it. *)
Theorem main_never_raises `{Externals} (w : World) : fst (main w) = Ok tt.
Proof.
  destruct (fetch_stock_data "JPM" "1y" "1d" (before_fetch w))
    as [[[table | ] | e] w1] eqn:Hfetch.
  - destruct (main_success_run w w1 table Hfetch) as (w2 & -> & _). reflexivity.
  - now rewrite (main_failure_run w w1 Hfetch).
  - pose proof (fetch_returns "JPM" "1y" "1d" (before_fetch w)) as Hr.
    rewrite Hfetch in Hr. discriminate Hr.
Qed.

(** X2: [fetch_stock_data] only prints and calls the client once: it
    leaves directories, files and the clock as they were. *)
Theorem fetch_stock_data_only_prints `{Externals}
    (ticker period interval : string) (w : World) :
  let w' := snd (fetch_stock_data ticker period interval w) in
  dirs w' = dirs w /\ files w' = files w /\ clock w' = clock w /\
  calls w' = calls w ++ [call_history ticker period interval].
Proof. rewrite fetch_stock_data_run. repeat split. Qed.

Section FurtherProperties.

Context `{Externals}.

(** X3: when the client answers a table with at least one row,
    [fetch_stock_data] returns that very table and reports the number of
    rows and the date range, from the index of the first row to that of
    the last. *)
Theorem fetch_stock_data_success (ticker period interval : string)
    (first : QuoteRow) (rest : Table) (w : World) :
  yf_history ticker period interval = Ok (first :: rest) ->
  exists w',
    fetch_stock_data ticker period interval w = (Ok (Some (first :: rest)), w') /\
    stdout w' =
      stdout w ++
      [ "Fetching data for " +:+ ticker +:+ "...";
        "Successfully fetched " +:+ pretty (S (length rest)) +:+ " rows of data";
        "Date range: " +:+ date first +:+ " to " +:+ date (List.last rest first) ].
Proof.
  intros Hanswer. rewrite fetch_stock_data_run, Hanswer.
  eexists. split; reflexivity.
Qed.

(** X4: when the client answers a frame without rows, [fetch_stock_data]
    prints the notice [No data found for {ticker}] and returns [None]; it
    prints neither a row count nor a date range. *)
Theorem fetch_stock_data_zero_rows (ticker period interval : string)
    (w : World) :
  yf_history ticker period interval = Ok [] ->
  exists w',
    fetch_stock_data ticker period interval w = (Ok None, w') /\
    stdout w' =
      stdout w ++ [ "Fetching data for " +:+ ticker +:+ "...";
                    "No data found for " +:+ ticker ].
Proof.
  intros Hanswer. rewrite fetch_stock_data_run, Hanswer.
  eexists. split; reflexivity.
Qed.

(** X5: whatever it is given, [save_data] leaves every file other than
    its target as it was, removes no directory and does not move the
    clock. *)
Theorem save_data_leaves_other_files (data : option Table)
    (ticker folder other : string) (w : World) :
  other <> csv_path folder ticker (strftime_Ymd (clock w)) ->
  let w' := snd (save_data data ticker folder w) in
  files w' !! other = files w !! other /\
  (forall d, d ∈ dirs w -> d ∈ dirs w') /\
  clock w' = clock w.
Proof.
  intros Hother.
  destruct (save_data_frame data ticker folder w) as (Hfiles & Hdirs & Hclock).
  cbv zeta. split; [ | split; [exact Hdirs | exact Hclock]].
  destruct Hfiles as [-> | [text ->]]; [reflexivity | ].
  now apply lookup_insert_ne.
Qed.

(** X6: within one folder the target path tells the ticker and the
    calendar date apart: two targets are the same path only for the same
    ticker on the same day. *)
Theorem dated_paths_distinct (folder ticker1 ticker2 : string)
    (t1 t2 : DateTime) :
  stamp_fits t1 -> stamp_fits t2 ->
  csv_path folder ticker1 (strftime_Ymd t1) =
  csv_path folder ticker2 (strftime_Ymd t2) ->
  ticker1 = ticker2 /\
  year t1 = year t2 /\ month t1 = month t2 /\ day t1 = day t2.
Proof.
  intros Hfit1 Hfit2 Heq.
  apply csv_path_inj in Heq as [Hticker Hstamp].
  - split; [exact Hticker | now apply strftime_Ymd_inj].
  - now rewrite !strftime_Ymd_length.
Qed.


(** X8: for finite quartiles with [p25 <= p75] the derived [iqr_range] is
    not below zero. *)
Theorem iqr_range_nonneg (stats : Stats) :
  F64.valid (s_p25 stats) = true -> F64.valid (s_p75 stats) = true ->
  F64.is_finite (s_p25 stats) = true -> F64.is_finite (s_p75 stats) = true ->
  F64.leb (s_p25 stats) (s_p75 stats) = true ->
  F64.leb F64.zero (iqr_range stats) = true.
Proof.
  intros. apply F64Facts.nonneg_leb. unfold iqr_range.
  now apply F64Facts.sub_nonneg.
Qed.

(** X9: for finite prices with [0 < min <= max] the derived
    [percent_increase] is a number not below zero (a zero, a positive
    float, or plus infinity on overflow): it is never a NaN and never
    negative. *)
Theorem percent_increase_nonneg (stats : Stats) :
  F64.valid (s_min stats) = true -> F64.valid (s_max stats) = true ->
  F64.is_finite (s_min stats) = true -> F64.is_finite (s_max stats) = true ->
  F64.ltb F64.zero (s_min stats) = true ->
  F64.leb (s_min stats) (s_max stats) = true ->
  F64.leb F64.zero (percent_increase stats) = true /\
  percent_increase stats <> S754_nan.
Proof.
  intros Vmin Vmax Fmin Fmax Hpos Hle.
  assert (Hn : F64.nonneg (percent_increase stats)).
  { unfold percent_increase, price_range.
    apply F64Facts.mul_hundred_nonneg, F64Facts.div_nonneg; try assumption.
    now apply F64Facts.sub_nonneg. }
  split; [now apply F64Facts.nonneg_leb | ].
  intros Heq. now rewrite Heq in Hn.
Qed.

(** X10: for a standard deviation not below zero and a finite mean above
    zero the derived [volatility_percent] is a number not below zero: it
    is never a NaN and never negative. *)
Theorem volatility_percent_nonneg (stats : Stats) :
  F64.leb F64.zero (s_std stats) = true ->
  F64.ltb F64.zero (s_mean stats) = true ->
  F64.is_finite (s_mean stats) = true ->
  F64.leb F64.zero (volatility_percent stats) = true /\
  volatility_percent stats <> S754_nan.
Proof.
  intros Hstd Hpos Fmean.
  assert (Hn : F64.nonneg (volatility_percent stats)).
  { unfold volatility_percent.
    apply F64Facts.mul_hundred_nonneg, F64Facts.div_nonneg; try assumption.
    now apply F64Facts.leb_zero_nonneg. }
  split; [now apply F64Facts.nonneg_leb | ].
  intros Heq. now rewrite Heq in Hn.
Qed.

(** X11: when the mean close is zero and the standard deviation finite,
    nothing guards the second division either: [volatility_percent] is an
    infinity or a NaN, and the fourth sentence of the story is written
    with it, shown as [inf], [-inf] or [nan]. *)
Theorem zero_mean_volatility_unguarded (ticker : string) (stats : Stats) :
  F64.eqb (s_mean stats) F64.zero = true ->
  F64.is_finite (s_std stats) = true ->
  F64.is_exceptional (volatility_percent stats) = true /\
  Spec.numeric_error_text (format_f 0 (volatility_percent stats)) = true /\
  story_4 stats (volatility_percent stats) ∈ story_lines ticker stats.
Proof.
  intros Hmean Hstd.
  assert (Hv : volatility_percent stats = S754_nan \/
               exists s, volatility_percent stats = S754_infinity s).
  { unfold volatility_percent.
    destruct (s_mean stats) as [smean | [] | | [] m e]; try discriminate Hmean.
    destruct (s_std stats) as [sstd | | | sstd m e]; try discriminate Hstd.
    - now left.
    - right. exists (xorb (xorb sstd smean) false). reflexivity. }
  split; [ | split].
  - destruct Hv as [-> | [s ->]]; reflexivity.
  - destruct Hv as [-> | [[] ->]]; reflexivity.
  - unfold story_lines. cbv zeta.
    do 7 apply list_elem_of_further. apply list_elem_of_here.
Qed.

(** X12: the outcome of [main] is decided by the answer to the history
    call alone, whatever the profile call answers: a table with at least
    one row ends in the success marker with that table written to the
    dated file under [data] and nothing else changed among the files; no
    row, or an exception, ends in the failure marker with files and
    directories as they were. *)
Theorem main_outcome_decided_by_history (w : World) :
  let w' := snd (main w) in
  let path := csv_path "data" "JPM" (strftime_Ymd (clock w)) in
  match yf_history "JPM" "1y" "1d" with
  | Ok (first :: rest) =>
      List.last (stdout w') "" = success_marker /\
      files w' = <[path := to_csv (first :: rest)]> (files w) /\
      "data" ∈ dirs w' /\ dirs w ⊆ dirs w'
  | Ok [] | Raise _ =>
      List.last (stdout w') "" = failure_marker /\
      files w' = files w /\ dirs w' = dirs w
  end.
Proof.
  intros w' path. destruct (main_effects w) as [_ Heff]. fold w' path in Heff.
  destruct (yf_history "JPM" "1y" "1d") as [[ | first rest] | e];
    cbn [Spec.fetch_result empty] in Heff.
  - now destruct Heff as (? & ? & ? & ?).
  - destruct Heff as (Hfiles & Hdirs & _ & Hlast).
    repeat split; try assumption.
    + rewrite Hdirs. apply dirs_with_folder.
    + rewrite Hdirs. unfold dirs_with.
      destruct (decide _); [reflexivity | apply union_subseteq_l].
  - now destruct Heff as (? & ? & ? & ?).
Qed.

(** X13: [main] asks the client for the profile of JPM, then once for one
    year of daily history; there is no second attempt.  Only after an
    answer with rows does it call [describe], [os.makedirs], the clock,
    [to_csv] and [os.path.getsize], once each and in this order. *)
Theorem main_calls_each_collaborator_once (w : World) :
  let path := csv_path "data" "JPM" (strftime_Ymd (clock w)) in
  calls (snd (main w)) =
  calls w ++ [ call_info "JPM"; call_history "JPM" "1y" "1d" ] ++
  match yf_history "JPM" "1y" "1d" with
  | Ok (_ :: _) =>
      [ call_describe; call_makedirs "data" true; call_now;
        call_to_csv path; call_getsize path ]
  | Ok [] | Raise _ => []
  end.
Proof.
  intros path. destruct (main_effects w) as [_ Heff]. fold path in Heff.
  destruct (yf_history "JPM" "1y" "1d") as [[ | first rest] | e];
    cbn [Spec.fetch_result empty] in Heff;
    destruct Heff as (_ & _ & -> & _); reflexivity.
Qed.

(** X14: running [main] again on the same calendar date, against a client
    that answers the same, leaves files and directories as the first run
    left them: the dated file is overwritten with the same text. *)
Theorem main_rerun_same_day (w : World) (later : DateTime) :
  year later = year (clock w) ->
  month later = month (clock w) ->
  day later = day (clock w) ->
  let w1 := snd (main w) in
  let w2 := snd (main (at_time later w1)) in
  files w2 = files w1 /\ dirs w2 = dirs w1.
Proof.
  intros Hy Hm Hd w1 w2.
  assert (Hstamp : strftime_Ymd later = strftime_Ymd (clock w))
    by (unfold strftime_Ymd; now rewrite Hy, Hm, Hd).
  destruct (main_effects w) as [_ H1]. fold w1 in H1.
  destruct (main_effects (at_time later w1)) as [_ H2]. fold w2 in H2.
  cbn [at_time clock files dirs] in H2. rewrite Hstamp in H2.
  destruct (Spec.fetch_result (yf_history "JPM" "1y" "1d")) as [table | ].
  - destruct H1 as (Hf1 & Hd1 & _). destruct H2 as (Hf2 & Hd2 & _).
    split.
    + rewrite Hf2, Hf1. apply insert_insert_eq.
    + rewrite Hd2. unfold dirs_with at 1. cbn [at_time dirs].
      destruct (decide ("data" ∈ dirs w1)) as [Hin | Hout]; [reflexivity | ].
      exfalso. apply Hout. rewrite Hd1. apply dirs_with_folder.
  - destruct H1 as (Hf1 & Hd1 & _). destruct H2 as (Hf2 & Hd2 & _).
    now rewrite Hf2, Hd2.
Qed.

(** X15: for a series whose highest close equals its lowest, a finite
    price above zero (a single row, or a flat series), the spread and the
    percentage are exactly zero and the story says [0%]. *)
Theorem flat_series_zero_swing (stats : Stats) :
  F64.is_finite (s_min stats) = true ->
  F64.ltb F64.zero (s_min stats) = true ->
  s_max stats = s_min stats ->
  price_range stats = F64.zero /\
  percent_increase stats = F64.zero /\
  format_f 0 (price_range stats) = "0" /\
  format_f 0 (percent_increase stats) = "0".
Proof.
  intros Fmin Hpos Hflat.
  destruct (F64Facts.ltb_zero_positive _ Hpos Fmin) as (m & e & Hmin).
  assert (Hrange : price_range stats = F64.zero).
  { unfold price_range. rewrite Hflat, Hmin.
    unfold F64.sub, SFsub. cbn [cond_Zopp]. now rewrite Z.sub_diag. }
  assert (Hpct : percent_increase stats = F64.zero).
  { unfold percent_increase. rewrite Hrange, Hmin. reflexivity. }
  rewrite Hrange, Hpct. repeat split.
Qed.

End FurtherProperties.

(** The example of the specification: closes within [150, 200] of mean 175
    and standard deviation 12 give a swing of about 33.3% and a volatility
    of about 6.9%; the story rounds them to 33 and 7. *)
Example example_percentages :
  format_f 1 (percent_increase Scenario.stats_example) = "33.3" /\
  format_f 1 (volatility_percent Scenario.stats_example) = "6.9" /\
  story_2 Scenario.stats_example (price_range Scenario.stats_example)
    (percent_increase Scenario.stats_example) =
    "2. Prices ranged from $150 to $200 - that's a $50 spread (about 33% increase from low to high!)" /\
  story_4 Scenario.stats_example (volatility_percent Scenario.stats_example) =
    "4. Standard deviation of $12 means daily prices typically varied by about 7% from average".
Proof. vm_compute. repeat split. Qed.

(** The whole output of a run against a client that is down. *)
Example run_client_down :
  @main Scenario.client_down Scenario.world0 =
  (Ok tt,
   mkWorld
     [ "=================================================="; "Stock Data Fetcher";
       "==================================================";
       "Could not fetch stock info: network is unreachable";
       "Fetching data for JPM...";
       "Error fetching data: network is unreachable";
       nl +:+ "❌ Failed to fetch data" ]
     ∅ ∅ (clock Scenario.world0)
     [ call_info "JPM"; call_history "JPM" "1y" "1d" ]).
Proof. reflexivity. Qed.

(** The formats on sample values: ties go to the even digit, the sign of a
    negative value that rounds to zero is kept. *)
Example format_samples :
  format_f 0 (F64.of_Z 175) = "175" /\
  format_f 2 (F64.div (F64.of_Z 1) (F64.of_Z 8)) = "0.12" /\
  format_f 2 (F64.div (F64.of_Z 3) (F64.of_Z 8)) = "0.38" /\
  format_f 6 (F64.div (F64.of_Z 1) (F64.of_Z 3)) = "0.333333" /\
  format_f 0 (F64.div (F64.of_Z (-1)) (F64.of_Z 3)) = "-0" /\
  format_f 2 (F64.div (F64.of_Z 1) F64.zero) = "inf" /\
  format_thousands 0 = "0" /\
  format_thousands 1000 = "1,000" /\
  format_thousands 612345678901 = "612,345,678,901" /\
  format_thousands (-1234567) = "-1,234,567" /\
  strftime_Ymd (mkDateTime 2024 3 7 10 30 0) = "20240307".
Proof. vm_compute. repeat split. Qed.

(** ** The claims at the concrete scenario *)

(** C3 at a client that is down and at one that answers three rows: the
    whole output of the two runs, the files and the external calls. *)
Lemma main_gated_by_fetch_witness :
  (exists w2,
     @main Scenario.client_down Scenario.world0 = (Ok tt, w2) /\
     stdout w2 =
       [ "=================================================="; "Stock Data Fetcher"; "==================================================";
         "Could not fetch stock info: network is unreachable";
         "Fetching data for JPM...";
         "Error fetching data: network is unreachable";
         nl +:+ "❌ Failed to fetch data" ] /\
     dirs w2 = ∅ /\ files w2 = ∅ /\
     calls w2 = [ call_info "JPM"; call_history "JPM" "1y" "1d" ]) /\
  (exists w2,
     @main Scenario.client_up Scenario.world0 = (Ok tt, w2) /\
     stdout w2 =
       [ "=================================================="; "Stock Data Fetcher"; "==================================================";
         nl +:+ "--- Stock Information for JPM ---";
         "Company: JPMorgan Chase & Co.";
         "Sector: N/A";
         "Industry: Banks";
         "Market Cap: $612,345,678,901";
         "Currency: N/A";
         "Fetching data for JPM...";
         "Successfully fetched 3 rows of data";
         "Date range: 2024-01-02 to 2024-01-04";
         nl +:+ "First 5 rows of data:";
         "2024-01-02" +:+ nl +:+ "2024-01-03" +:+ nl +:+ "2024-01-04";
         nl +:+ "Basic Statistics:";
         nl +:+ "count: 3.000000";
         "What it means: The number of data points (trading days) in your dataset.";
         nl +:+ "mean: 175.000000";
         "What it means: The average closing price across all 3 days.";
         nl +:+ "std: 25.000000 (Standard Deviation)";
         "What it means: How much the stock price varies or spreads out from the average.";
         nl +:+ "min: 150.000000";
         "What it means: The lowest closing price in the dataset.";
         nl +:+ "25%: 162.500000 (First Quartile)";
         "What it means: 25% of the days, the stock closed at or below $162.50.";
         nl +:+ "50%: 175.000000 (Median)";
         "What it means: The middle value. Half the days were above this price, half were below.";
         nl +:+ "75%: 187.500000 (Third Quartile)";
         "What it means: 75% of the days, the stock closed at or below $187.50.";
         nl +:+ "max: 200.000000";
         "What it means: The highest closing price in the dataset.";
         nl +:+ "============================================================";
         "Putting It All Together - The Story";
         "============================================================";
         "These stats tell us:";
         "1. JPM averaged $175 over the year";
         "2. Prices ranged from $150 to $200 - that's a $50 spread (about 33% increase from low to high!)";
         "3. Most days (50% of them) the stock was between $162 and $188 (the 25%-75% range)";
         "4. Standard deviation of $25 means daily prices typically varied by about 14% from average";
         "Data saved to: data/JPM_20240307.csv";
         "File size: 0.06 KB";
         nl +:+ "✅ Data fetch complete!" ] /\
     "data" ∈ dirs w2 /\
     files w2 =
       <["data/JPM_20240307.csv" := Scenario.csv_text Scenario.table3]> ∅ /\
     calls w2 =
       [ call_info "JPM"; call_history "JPM" "1y" "1d"; call_describe;
         call_makedirs "data" true; call_now;
         call_to_csv "data/JPM_20240307.csv";
         call_getsize "data/JPM_20240307.csv" ]).
Proof.
  split.
  - destruct (@main_gated_by_fetch Scenario.client_down Scenario.world0)
      as (data & w1 & Hfetch & Hrun).
    vm_compute in Hfetch. injection Hfetch as <- <-.
    destruct Hrun as (w2 & Hmain & Hout & Hdirs & Hfiles & Hcalls).
    exists w2. split; [exact Hmain | ]. split; [exact Hout | ].
    split; [exact Hdirs | ]. split; [exact Hfiles | exact Hcalls].
  - destruct (@main_gated_by_fetch Scenario.client_up Scenario.world0)
      as (data & w1 & Hfetch & Hrun).
    vm_compute in Hfetch. injection Hfetch as <- <-.
    destruct Hrun as (w2 & Hmain & Hout & Hdir & Hfiles & Hcalls).
    exists w2. split; [exact Hmain | ]. split; [exact Hout | ].
    split; [exact Hdir | ]. split; [exact Hfiles | exact Hcalls].
Defined.



(** C2 at a client that is down, next to one that answers no row. *)
Lemma fetch_catches_client_failure_witness :
  exists w',
    @fetch_stock_data Scenario.client_down "JPM" "1y" "1d" Scenario.world0 =
      (Ok None, w') /\
    stdout w' =
      [ "Fetching data for JPM..."; "Error fetching data: network is unreachable" ] /\
    fst (@fetch_stock_data Scenario.client_no_rows "JPM" "1y" "1d" Scenario.world0) =
    fst (@fetch_stock_data Scenario.client_down "JPM" "1y" "1d" Scenario.world0).
Proof.
  destruct (fetch_catches_client_failure Scenario.client_down
              Scenario.client_no_rows "JPM" "1y" "1d"
              (mkExn "ConnectionError" "network is unreachable")
              Scenario.world0 eq_refl eq_refl)
    as (w' & Hrun & Hout & _ & _ & Hsame).
  exists w'. split; [exact Hrun | ]. split; [exact Hout | exact Hsame].
Defined.

(** C10 at a zero-row table in the empty world. *)
Lemma save_data_no_data_no_effect_witness :
  exists w',
    @save_data Scenario.client_up (Some []) "JPM" "data" Scenario.world0 =
      (Ok tt, w') /\
    stdout w' = ["No data to save"] /\
    dirs w' = ∅ /\ files w' = ∅ /\ calls w' = [].
Proof.
  exact (@save_data_no_data_no_effect Scenario.client_up (Some []) "JPM" "data"
           Scenario.world0 (or_intror eq_refl)).
Defined.





(** C8 at the statistics of the three-row table. *)
Lemma price_range_nonneg_witness :
  price_range Scenario.stats3 = F64.of_Z 50 /\
  F64.leb F64.zero (price_range Scenario.stats3) = true.
Proof.
  destruct (price_range_nonneg Scenario.stats3
              eq_refl eq_refl eq_refl eq_refl eq_refl) as [_ Hle].
  split; [vm_compute; reflexivity | exact Hle].
Defined.

(** C1, as the code has it, at the series 0, 200, 100. *)
Lemma zero_min_percent_increase_unguarded_witness :
  percent_increase Scenario.stats_zero_min = S754_infinity false /\
  exists w2,
    @main Scenario.client_zero_min Scenario.world0 = (Ok tt, w2) /\
    "2. Prices ranged from $0 to $200 - that's a $200 spread (about inf% increase from low to high!)"
      ∈ stdout w2 /\
    files w2 =
      <["data/JPM_20240307.csv" := Scenario.csv_text Scenario.table_zero_min]> ∅ /\
    List.last (stdout w2) "" = nl +:+ "✅ Data fetch complete!".
Proof.
  destruct (@zero_min_percent_increase_unguarded Scenario.client_zero_min
              Scenario.world0
              (snd (@fetch_stock_data Scenario.client_zero_min "JPM" "1y" "1d"
                      (@before_fetch Scenario.client_zero_min Scenario.world0)))
              Scenario.table_zero_min eq_refl eq_refl)
    as (_ & _ & _ & w2 & Hmain & Hline & Hfiles & Hlast).
  split; [reflexivity | ]. exists w2. split; [exact Hmain | ].
  split; [exact Hline | ]. split; [exact Hfiles | exact Hlast].
Defined.

(** C1, as the specification states it, fails at a series whose lowest
    close is zero and whose highest is 200: the story is neither skipped
    nor marked undefined, [main] prints it with [inf] as the percentage. *)
Lemma zero_min_story_reports_inf :
  F64.eqb (s_min Scenario.stats_zero_min) F64.zero = true /\
  percent_increase Scenario.stats_zero_min = S754_infinity false /\
  Spec.numeric_error_text
    (format_f 0 (percent_increase Scenario.stats_zero_min)) = true /\
  fst (@main Scenario.client_zero_min Scenario.world0) = Ok tt /\
  existsb
    (String.eqb
       "2. Prices ranged from $0 to $200 - that's a $200 spread (about inf% increase from low to high!)")
    (stdout (snd (@main Scenario.client_zero_min Scenario.world0))) = true.
Proof. vm_compute. repeat split. Qed.

(** ** The further properties at the concrete scenario *)

(** X3 at the client that answers three rows. *)
Lemma fetch_stock_data_success_witness :
  exists w',
    @fetch_stock_data Scenario.client_up "JPM" "1y" "1d" Scenario.world0 =
      (Ok (Some Scenario.table3), w') /\
    stdout w' =
      [ "Fetching data for JPM..."; "Successfully fetched 3 rows of data";
        "Date range: 2024-01-02 to 2024-01-04" ].
Proof.
  exact (@fetch_stock_data_success Scenario.client_up "JPM" "1y" "1d"
           (Scenario.quote "2024-01-02" 150)
           [ Scenario.quote "2024-01-03" 200; Scenario.quote "2024-01-04" 175 ]
           Scenario.world0 eq_refl).
Defined.

(** X4 at the client that answers no row. *)
Lemma fetch_stock_data_zero_rows_witness :
  exists w',
    @fetch_stock_data Scenario.client_no_rows "JPM" "1y" "1d" Scenario.world0 =
      (Ok None, w') /\
    stdout w' = [ "Fetching data for JPM..."; "No data found for JPM" ].
Proof.
  exact (@fetch_stock_data_zero_rows Scenario.client_no_rows "JPM" "1y" "1d"
           Scenario.world0 eq_refl).
Defined.

(** X5: the file of the day before survives the save of 7 March 2024. *)
Lemma save_data_leaves_other_files_witness :
  files (snd (@save_data Scenario.client_up (Some Scenario.table3) "JPM" "data"
                Scenario.world_day_after))
    !! "data/JPM_20240306.csv" = Some "Date,Close".
Proof.
  destruct (@save_data_leaves_other_files Scenario.client_up
              (Some Scenario.table3) "JPM" "data" "data/JPM_20240306.csv"
              Scenario.world_day_after ltac:(discriminate)) as [Hkept _].
  rewrite Hkept. reflexivity.
Defined.

(** X6 at one ticker and one day read at two times of the day. *)
Lemma dated_paths_distinct_witness :
  "JPM" = "JPM" /\
  year (mkDateTime 2024 3 7 10 30 0) = year (mkDateTime 2024 3 7 23 59 59) /\
  month (mkDateTime 2024 3 7 10 30 0) = month (mkDateTime 2024 3 7 23 59 59) /\
  day (mkDateTime 2024 3 7 10 30 0) = day (mkDateTime 2024 3 7 23 59 59).
Proof.
  exact (dated_paths_distinct "data" "JPM" "JPM"
           (mkDateTime 2024 3 7 10 30 0) (mkDateTime 2024 3 7 23 59 59)
           (conj eq_refl (conj eq_refl eq_refl))
           (conj eq_refl (conj eq_refl eq_refl)) eq_refl).
Defined.


(** X8 at the statistics of the three-row table: 187.5 - 162.5. *)
Lemma iqr_range_nonneg_witness :
  F64.leb F64.zero (iqr_range Scenario.stats3) = true.
Proof.
  exact (iqr_range_nonneg Scenario.stats3 eq_refl eq_refl eq_refl eq_refl
           eq_refl).
Defined.

(** X9 at the statistics of the three-row table. *)
Lemma percent_increase_nonneg_witness :
  F64.leb F64.zero (percent_increase Scenario.stats3) = true /\
  percent_increase Scenario.stats3 <> S754_nan.
Proof.
  exact (percent_increase_nonneg Scenario.stats3 eq_refl eq_refl eq_refl
           eq_refl eq_refl eq_refl).
Defined.

(** X10 at the statistics of the three-row table. *)
Lemma volatility_percent_nonneg_witness :
  F64.leb F64.zero (volatility_percent Scenario.stats3) = true /\
  volatility_percent Scenario.stats3 <> S754_nan.
Proof.
  exact (volatility_percent_nonneg Scenario.stats3 eq_refl eq_refl eq_refl).
Defined.

(** X11 at three closes of zero: the story says [nan%]. *)
Lemma zero_mean_volatility_unguarded_witness :
  volatility_percent Scenario.stats_all_zero = S754_nan /\
  "4. Standard deviation of $0 means daily prices typically varied by about nan% from average"
    ∈ story_lines "JPM" Scenario.stats_all_zero.
Proof.
  destruct (zero_mean_volatility_unguarded "JPM" Scenario.stats_all_zero
              eq_refl eq_refl) as (_ & _ & Hline).
  split; [reflexivity | exact Hline].
Defined.

(** X14: a second run before midnight against the client that answers. *)
Lemma main_rerun_same_day_witness :
  let w1 := snd (@main Scenario.client_up Scenario.world0) in
  let w2 := snd (@main Scenario.client_up
                   (at_time (mkDateTime 2024 3 7 23 59 59) w1)) in
  files w2 = files w1 /\ dirs w2 = dirs w1.
Proof.
  exact (@main_rerun_same_day Scenario.client_up Scenario.world0
           (mkDateTime 2024 3 7 23 59 59) eq_refl eq_refl eq_refl).
Defined.

(** X15 at a single close of 150. *)
Lemma flat_series_zero_swing_witness :
  price_range Scenario.stats_flat = F64.zero /\
  percent_increase Scenario.stats_flat = F64.zero /\
  format_f 0 (price_range Scenario.stats_flat) = "0" /\
  format_f 0 (percent_increase Scenario.stats_flat) = "0".
Proof.
  exact (flat_series_zero_swing Scenario.stats_flat eq_refl eq_refl eq_refl).
Defined.
